(** * conda.gateways.connection.download: download-and-verify

    A shallow embedding of [conda/gateways/connection/download.py]: the
    [SingleThreadCondaSession] context manager and the [download] routine,
    with the file system, the progress loggers, the HTTP transport and the
    session lock made explicit.

    A call is a computation in a monad of exceptions, state and a log of
    the calls made on collaborators.  What the remote end and the local
    disk do is an input ([Env]).  The diagnostic [log.debug] lines are left
    out: they neither change state nor reach a progress logger.  The
    timeouts and proxies handed to [session.get] are part of what [Env]
    answers for a url. *)

From Stdlib Require Import ZArith List String Ascii Lia Bool DecimalString.
From Stdlib Require Import Init.Byte.
From stdpp Require Import base option list strings gmap.

Local Open Scope Z_scope.

Abbreviation bytes := (list byte).

(** ** hashlib's md5 (RFC 1321), over byte strings *)

Module MD5.

Definition mask32 (x : Z) : Z := Z.land x 4294967295.

Definition rotl32 (x : Z) (c : Z) : Z :=
  mask32 (Z.lor (Z.shiftl x c) (Z.shiftr (mask32 x) (32 - c))).

Definition not32 (x : Z) : Z := Z.lxor (mask32 x) 4294967295.

Definition K : list Z :=
  [ 3614090360; 3905402710; 606105819; 3250441966; 4118548399; 1200080426; 2821735955; 4249261313;
    1770035416; 2336552879; 4294925233; 2304563134; 1804603682; 4254626195; 2792965006; 1236535329;
    4129170786; 3225465664; 643717713; 3921069994; 3593408605; 38016083; 3634488961; 3889429448;
    568446438; 3275163606; 4107603335; 1163531501; 2850285829; 4243563512; 1735328473; 2368359562;
    4294588738; 2272392833; 1839030562; 4259657740; 2763975236; 1272893353; 4139469664; 3200236656;
    681279174; 3936430074; 3572445317; 76029189; 3654602809; 3873151461; 530742520; 3299628645;
    4096336452; 1126891415; 2878612391; 4237533241; 1700485571; 2399980690; 4293915773; 2240044497;
    1873313359; 4264355552; 2734768916; 1309151649; 4149444226; 3174756917; 718787259; 3951481745 ]%Z.

Definition S : list Z :=
  [ 7; 12; 17; 22; 7; 12; 17; 22; 7; 12; 17; 22; 7; 12; 17; 22;
    5; 9; 14; 20; 5; 9; 14; 20; 5; 9; 14; 20; 5; 9; 14; 20;
    4; 11; 16; 23; 4; 11; 16; 23; 4; 11; 16; 23; 4; 11; 16; 23;
    6; 10; 15; 21; 6; 10; 15; 21; 6; 10; 15; 21; 6; 10; 15; 21 ]%Z.

Definition state : Type := Z * Z * Z * Z.

Definition init : state := (1732584193, 4023233417, 2562383102, 271733878).

(** One of the 64 operations of a block: [i] is the operation index and
    [m] the sixteen little-endian words of the block. *)
Definition round (m : list Z) (st : state) (i : nat) : state :=
  let '(a, b, c, d) := st in
  let zi := Z.of_nat i in
  let '(f, g) :=
    if zi <? 16 then (Z.lor (Z.land b c) (Z.land (not32 b) d), zi)
    else if zi <? 32 then (Z.lor (Z.land d b) (Z.land (not32 d) c), (5 * zi + 1) mod 16)
    else if zi <? 48 then (Z.lxor (Z.lxor b c) d, (3 * zi + 5) mod 16)
    else (Z.lxor c (Z.lor b (not32 d)), (7 * zi) mod 16) in
  let f' := mask32 (f + a + nth i K 0 + nth (Z.to_nat g) m 0) in
  (d, mask32 (b + rotl32 f' (nth i S 0)), b, c).

Definition word_le (bs : list Z) : Z :=
  match bs with
  | b0 :: b1 :: b2 :: b3 :: _ => b0 + 256 * b1 + 65536 * b2 + 16777216 * b3
  | _ => 0
  end.

Fixpoint words (n : nat) (bs : list Z) : list Z :=
  match n with
  | O => []
  | Datatypes.S n' => word_le bs :: words n' (skipn 4 bs)
  end.

Definition block (st : state) (bs : list Z) : state :=
  let m := words 16 bs in
  let '(a0, b0, c0, d0) := st in
  let '(a, b, c, d) := fold_left (round m) (seq 0 64) st in
  (mask32 (a0 + a), mask32 (b0 + b), mask32 (c0 + c), mask32 (d0 + d)).

Fixpoint blocks (n : nat) (st : state) (bs : list Z) : state :=
  match n with
  | O => st
  | Datatypes.S n' => blocks n' (block st (firstn 64 bs)) (skipn 64 bs)
  end.

Definition le_bytes (n : nat) (x : Z) : list Z :=
  map (fun k => Z.land (Z.shiftr x (8 * Z.of_nat k)) 255) (seq 0 n).

Definition pad (msg : list Z) : list Z :=
  let len := Z.of_nat (length msg) in
  let zeros := Z.to_nat ((55 - len) mod 64) in
  msg ++ 128 :: repeat 0 zeros ++ le_bytes 8 (8 * len).

Definition hex_digit (x : Z) : ascii :=
  if x <? 10 then ascii_of_nat (Z.to_nat (48 + x)) else ascii_of_nat (Z.to_nat (87 + x)).

Definition hex_byte (x : Z) : string :=
  String (hex_digit (x / 16)) (String (hex_digit (x mod 16)) EmptyString).

Definition hexdigest (data : bytes) : string :=
  let msg := pad (map (fun b => Z.of_N (Byte.to_N b)) data) in
  let '(a, b, c, d) := blocks (length msg / 64) init msg in
  String.concat "" (map hex_byte (le_bytes 4 a ++ le_bytes 4 b ++ le_bytes 4 c ++ le_bytes 4 d)).

End MD5.

Local Open Scope string_scope.
Local Open Scope list_scope.

(** ** Python built-ins used by the routine *)

(** Keyword-argument payloads of [CondaError] hold strings, ints or [None]. *)
Inductive pyval : Type :=
| VNone
| VInt (z : Z)
| VStr (s : string).

(** The characters [int] skips around a literal: ASCII whitespace and, of
    Latin-1, NEL and the no-break space. *)
Definition is_space (c : ascii) : bool :=
  let n := nat_of_ascii c in
  (Nat.eqb n 32 || (Nat.leb 9 n && Nat.leb n 13) || Nat.eqb n 133 || Nat.eqb n 160)%bool.

Definition is_digit (c : ascii) : bool :=
  let n := nat_of_ascii c in (Nat.leb 48 n && Nat.leb n 57)%bool.

Fixpoint lstrip (s : string) : string :=
  match s with
  | String c s' => if is_space c then lstrip s' else s
  | EmptyString => s
  end.

(** What [int] makes of a string: a value, the [ValueError] for a literal
    that is not one, or the [ValueError] for a literal with more digits
    than the interpreter converts. *)
Inductive int_parse : Type :=
| Parsed (n : Z)
| Invalid
| TooManyDigits (digits : nat).

(** Decimal digits with single underscores between them: the value, the
    number of digits and what follows them; [None] when there is no digit
    or an underscore does not stand between two digits. *)
Fixpoint scan_digits (acc : Z) (count : nat) (after_digit : bool) (s : string)
    : option (Z * nat * string) :=
  match s with
  | String c s' =>
      if is_digit c
      then scan_digits (10 * acc + Z.of_nat (nat_of_ascii c - 48)) (S count) true s'
      else if Ascii.eqb c "_"
      then (if after_digit then scan_digits acc count false s' else None)
      else if after_digit then Some (acc, count, s) else None
  | EmptyString => if after_digit then Some (acc, count, EmptyString) else None
  end.

(** The default of [sys.get_int_max_str_digits()]. *)
Definition max_str_digits : nat := 4300.

(** [int(s)] on a string, as CPython 3.11 does it with its default
    settings, for strings of Latin-1 characters: leading whitespace, one
    optional sign, digits with single underscores between them, trailing
    whitespace. *)
Definition parse_int (s : string) : int_parse :=
  let '(negative, literal) :=
    match lstrip s with
    | String "-" r => (true, r)
    | String "+" r => (false, r)
    | r => (false, r)
    end in
  match scan_digits 0 0 false literal with
  | None => Invalid
  | Some (n, digits, rest) =>
      if Nat.ltb max_str_digits digits then TooManyDigits digits
      else match lstrip rest with
           | EmptyString => Parsed (if negative then - n else n)
           | _ => Invalid
           end
  end.

(** The value of [int(s)]; [None] stands for the [ValueError]. *)
Definition int_of_str (s : string) : option Z :=
  match parse_int s with
  | Parsed n => Some n
  | _ => None
  end.

Definition lower_ascii (c : ascii) : ascii :=
  let n := nat_of_ascii c in
  if (Nat.leb 65 n && Nat.leb n 90)%bool then ascii_of_nat (n + 32) else c.

Fixpoint lower (s : string) : string :=
  match s with
  | EmptyString => EmptyString
  | String c s' => String (lower_ascii c) (lower s')
  end.

(** [needle in hay] on strings. *)
Fixpoint contains (needle hay : string) : bool :=
  (String.prefix needle hay ||
   match hay with
   | EmptyString => false
   | String _ hay' => contains needle hay'
   end)%bool.

(** [posixpath.basename]: what follows the last slash. *)
Fixpoint basename (p : string) : string :=
  match p with
  | EmptyString => EmptyString
  | String c p' =>
      if contains "/" p then basename p' else p
  end.

(** [s[:n]] for a non-negative [n]. *)
Fixpoint str_take (n : nat) (s : string) : string :=
  match n, s with
  | S n', String c s' => String c (str_take n' s')
  | _, _ => EmptyString
  end.

(** [repr(s)] of a string of Latin-1 characters. *)
Definition hex_char (n : nat) : ascii :=
  if Nat.ltb n 10 then ascii_of_nat (48 + n) else ascii_of_nat (87 + n).

Definition is_printable (c : ascii) : bool :=
  let n := nat_of_ascii c in
  ((Nat.leb 32 n && Nat.leb n 126) || (Nat.leb 161 n && negb (Nat.eqb n 173)))%bool.

Definition backslash : ascii := "\".
Definition single_quote : ascii := "'".
Definition double_quote : ascii := ascii_of_nat 34.

Definition repr_char (quote c : ascii) : string :=
  let n := nat_of_ascii c in
  if (Ascii.eqb c quote || Ascii.eqb c backslash)%bool
  then String backslash (String c EmptyString)
  else if Nat.eqb n 9 then String backslash "t"
  else if Nat.eqb n 10 then String backslash "n"
  else if Nat.eqb n 13 then String backslash "r"
  else if is_printable c then String c EmptyString
  else String backslash
         (String "x" (String (hex_char (n / 16)) (String (hex_char (n mod 16)) EmptyString))).

Fixpoint repr_chars (quote : ascii) (s : string) : string :=
  match s with
  | EmptyString => EmptyString
  | String c s' => repr_char quote c +:+ repr_chars quote s'
  end.

Definition py_repr (s : string) : string :=
  let quote :=
    if (contains (String single_quote EmptyString) s
        && negb (contains (String double_quote EmptyString) s))%bool
    then double_quote else single_quote in
  String quote (repr_chars quote s +:+ String quote EmptyString).

(** The text of the [ValueError] that [int(s)] raises. *)
Definition int_error_message (s : string) : string :=
  match parse_int s with
  | TooManyDigits digits =>
      "Exceeds the limit (4300 digits) for integer string conversion: value has "
      +:+ NilZero.string_of_uint (Nat.to_uint digits)
      +:+ " digits; use sys.set_int_max_str_digits() to increase the limit"
  | _ =>
      "invalid literal for int() with base 10: " +:+ str_take 200 (py_repr s)
  end.

(** ** Data model *)

(** What the routine reads of a [requests.Response].  [body] lists what
    [iter_content] yields: each (possibly decoded) chunk together with the
    value [resp.raw.tell()] has when that chunk is handed to the loop.
    [elapsed] is in microseconds. *)
Record Response : Type := mkResponse {
  status_code : Z;
  reason : string;
  elapsed : Z;
  headers : list (string * string);
  body : list (bytes * Z)
}.

(** Exceptions that come from underneath: [requests], the file object and
    [int].  [OtherRequestException] stands for the [requests] exceptions no
    [except] clause names (timeouts of a read, too many redirects, ...). *)
Inductive lib_exn : Type :=
| ConnectionError (response : option Response)
| HTTPError (response : option Response)
| SSLError (response : option Response)
| InvalidSchema (message : string)
| OtherRequestException (class_name : string)
| IOError (errno : Z)
| OSError (errno : Z)
| ValueError (message : string).

(** The exceptions a call can end with: conda's own, or a library's that
    no clause translated. *)
Inductive exn : Type :=
| BasicClobberError (path url : string)
| CondaError (message : string) (kwargs : list (string * pyval))
| MD5MismatchError (url target_full_path expected_md5sum actual_md5sum : string)
| CondaDependencyError (message : string)
| CondaHTTPError (message url : string) (status : option Z) (reason_ : option string)
    (elapsed_time : option Z) (response : option Response) (caused_by : lib_exn)
| LibError (e : lib_exn).

(** Calls the routine makes on its collaborators, in program order. *)
Inductive event : Type :=
| WarningsIgnoreInsecure
| PrintClobberWarning (target_path url : string)
| SessionInit
| MutexAcquire
| MutexRelease
| SessionGet (url : string)
| FileOpen (path : string)
| FileWrite (path : string) (chunk : bytes)
| FileClose (path : string)
| DigestUpdate (chunk : bytes)
| FetchStart (name : string) (declared : Z)
| FetchUpdate (streamed : Z)
| FetchStop.

(** Modelled from the spec: the policy [maybe_raise] consults; [Prevent]
    is the default. *)
Inductive PathConflict : Type := Prevent | Warn.

Record Context : Type := mkContext {
  ssl_verify : bool;
  path_conflict : PathConflict
}.

(** What [session.get(url, stream=True, ...)] does: it raises, or returns a
    response whose body iterator may itself raise after its last chunk. *)
Inductive get_outcome : Type :=
| GetRaises (e : lib_exn)
| GetReturns (resp : Response) (stream_error : option lib_exn).

(** The surroundings of one call: configuration, the remote end, and the
    faults of the local disk ([open_fault p] is the errno [open(p, 'wb')]
    fails with, [write_fault k] the errno the [k]-th [fh.write] fails with). *)
Record Env : Type := mkEnv {
  context : Context;
  http_get : string -> get_outcome;
  open_fault : string -> option Z;
  write_fault : nat -> option Z
}.

(** Process state that outlives a call: the files on disk and whether the
    class attribute [SingleThreadCondaSession._session] is set. *)
Record World : Type := mkWorld {
  fs : gmap string bytes;
  session_cached : bool
}.

(** A call's frame: the world and the local [content_length], which the
    [finally] clause reads ([None] until line 65 assigns it). *)
Record Frame : Type := mkFrame {
  world : World;
  content_length : option Z
}.

(** ** Exceptions, state and the event log as a monad *)

Inductive outcome (A : Type) : Type :=
| Return (a : A)
| Raise (e : exn).
Arguments Return {A} a.
Arguments Raise {A} e.

Definition M (A : Type) : Type := Frame -> outcome A * Frame * list event.

Definition ret {A} (a : A) : M A := fun s => (Return a, s, []).

Definition bind {A B} (m : M A) (k : A -> M B) : M B :=
  fun s =>
    match m s with
    | (Return a, s', t) => let '(r, s'', t') := k a s' in (r, s'', t ++ t')
    | (Raise e, s', t) => (Raise e, s', t)
    end.

Definition raise {A} (e : exn) : M A := fun s => (Raise e, s, []).

Definition emit (ev : event) : M unit := fun s => (Return tt, s, [ev]).

Definition get_world : M World := fun s => (Return (world s), s, []).

Definition put_world (w : World) : M unit :=
  fun s => (Return tt, mkFrame w (content_length s), []).

Definition when (b : bool) (m : M unit) : M unit := if b then m else ret tt.

(** [try: m except ...]: [handler e] is the body of the first clause that
    matches [e], if any. *)
Definition try_except {A} (m : M A) (handler : exn -> option (M A)) : M A :=
  fun s =>
    match m s with
    | (Raise e, s', t) =>
        match handler e with
        | Some h => let '(r, s'', t') := h s' in (r, s'', t ++ t')
        | None => (Raise e, s', t)
        end
    | r => r
    end.

(** [try: m finally: f]. *)
Definition try_finally {A} (m : M A) (f : M unit) : M A :=
  fun s =>
    let '(r, s', t) := m s in
    match f s' with
    | (Return _, s'', t') => (r, s'', t ++ t')
    | (Raise e, s'', t') => (Raise e, s'', t ++ t')
    end.

(** [with cm as x: body], for an [__exit__] that returns [None]. *)
Definition with_ {A B} (enter : M A) (exit : M unit) (body : A -> M B) : M B :=
  bind enter (fun x => try_finally (body x) exit).

#[global] Instance M_ret : MRet M := @ret.
#[global] Instance M_bind : MBind M := fun A B k m => bind m k.

(** ** Collaborators *)

Definition truthy (z : Z) : bool := negb (z =? 0)%Z.

Definition truthy_str (s : option string) : bool :=
  match s with
  | Some (String _ _) => true
  | _ => false
  end.

(** [resp.headers.get(name)] on the case-insensitive header dictionary,
    kept as the list of its items. *)
Fixpoint headers_get (name : string) (hs : list (string * string)) : option string :=
  match hs with
  | [] => None
  | (k, v) :: hs' =>
      if String.eqb (lower k) (lower name) then Some v else headers_get name hs'
  end.

(** [resp.raise_for_status()] of the [requests] library: it raises an
    [HTTPError] that carries the response when [400 <= status_code < 600]
    (client and server errors) and does nothing for any other status. *)
Definition raise_for_status (resp : Response) : M unit :=
  if ((400 <=? status_code resp) && (status_code resp <? 600))%Z
  then raise (LibError (HTTPError (Some resp)))
  else ret tt.

(** [os.path.exists]. *)
Definition exists_ (path : string) : M bool :=
  w ← get_world; mret (bool_decide (is_Some (fs w !! path))).

(** Modelled from the spec: [conda.exceptions.maybe_raise], with the
    path-conflict policy of the context it reads, is missing from the
    sources.  The spec describes it as the hook that raises a clobber error
    under the default policy and, when the operator has downgraded path
    conflicts, reports it as a warning instead. *)
Definition maybe_raise (e : exn) (ctx : Context) : M unit :=
  match path_conflict ctx with
  | Prevent => raise e
  | Warn =>
      match e with
      | BasicClobberError p u => emit (PrintClobberWarning p u)
      | _ => raise e
      end
  end.

Definition disable_ssl_verify_warning : M unit := emit WarningsIgnoreInsecure.

(** [SingleThreadCondaSession.__enter__]: install the instance as the shared
    one when there is none yet, then take the class-wide lock. *)
Definition session_enter : M unit :=
  w ← get_world;
  when (negb (session_cached w))
       (put_world (mkWorld (fs w) true);; emit SessionInit);;
  emit MutexAcquire.

(** [SingleThreadCondaSession.__exit__]. *)
Definition session_exit : M unit := emit MutexRelease.

Section Download.

Variable env : Env.

Definition session_get (url : string) : M (Response * option lib_exn) :=
  emit (SessionGet url);;
  match http_get env url with
  | GetRaises e => raise (LibError e)
  | GetReturns resp stream_error => mret (resp, stream_error)
  end.

(** [open(path, 'wb')]: fails with [IOError], or creates or truncates.
    The file object is taken at its simplest: a write that returns has
    reached the file, a write that raises has added nothing, and closing
    does not raise.  What the disk holds after a write or a close has
    failed depends on the buffering underneath and is not settled here. *)
Definition open_wb (path : string) : M unit :=
  match open_fault env path with
  | Some errno => raise (LibError (IOError errno))
  | None =>
      w ← get_world;
      put_world (mkWorld (<[path := []]> (fs w)) (session_cached w));;
      emit (FileOpen path)
  end.

Definition file_close (path : string) : M unit := emit (FileClose path).

(** The [k]-th [fh.write(chunk)] of the call. *)
Definition fh_write (path : string) (k : nat) (chunk : bytes) : M unit :=
  match write_fault env k with
  | Some errno => raise (LibError (IOError errno))
  | None =>
      w ← get_world;
      put_world (mkWorld (<[path := default [] (fs w !! path) ++ chunk]> (fs w))
                         (session_cached w));;
      emit (FileWrite path chunk)
  end.

Definition nl : string := String (ascii_of_nat 10) EmptyString.

Definition write_failed_message : string :=
  "Failed to write to %(target_path)s" +:+ nl +:+ "  errno: %(errno)d".

Definition length_mismatch_message : string :=
  "Downloaded bytes did not match Content-Length" +:+ nl +:+
  "  url: %(url)s" +:+ nl +:+
  "  target_path: %(target_path)s" +:+ nl +:+
  "  Content-Length: %(content_length)d" +:+ nl +:+
  "  downloaded bytes: %(downloaded_bytes)d" +:+ nl.

Definition socks_message : string :=
  "Requests has identified that your current working environment is configured" +:+ nl +:+
  "to use a SOCKS proxy, but pysocks is not installed.  To proceed, remove your" +:+ nl +:+
  "proxy configuration, run `conda install pysocks`, and then you can re-enable" +:+ nl +:+
  "your proxy configuration." +:+ nl.

Definition help_message : string :=
  "An HTTP error occurred when trying to retrieve this URL." +:+ nl +:+
  "HTTP errors are often intermittent, and a simple retry will get you on your way." +:+ nl.

(** [int(resp.headers.get('Content-Length', 0))]. *)
Definition declared_length (resp : Response) : M Z :=
  match headers_get "Content-Length" (headers resp) with
  | None => mret 0%Z
  | Some v =>
      match int_of_str v with
      | Some n => mret n
      | None => raise (LibError (ValueError (int_error_message v)))
      end
  end.

Definition set_content_length (n : Z) : M unit :=
  fun s => (Return tt, mkFrame (world s) (Some n), []).

Definition get_content_length : M (option Z) :=
  fun s => (Return (content_length s), s, []).

(** The exceptions [except (IOError, OSError)] catches: the built-in ones
    and every [requests] exception, which derive from [IOError]. *)
Definition is_io_error (e : exn) : bool :=
  match e with
  | LibError (ValueError _) => false
  | LibError _ => true
  | _ => false
  end.

(** Lines 74-88: the [for chunk in resp.iter_content(2 ** 14)] loop.  [k]
    counts the writes made so far; the result is the digest builder (the
    chunks fed to it, in order) and [streamed_bytes] at loop exit. *)
Fixpoint stream_loop (target_full_path : string) (content_length : Z)
    (chunks : list (bytes * Z)) (stream_error : option lib_exn)
    (k : nat) (digest_builder : list bytes) (streamed_bytes : Z)
    : M (list bytes * Z) :=
  match chunks with
  | [] =>
      match stream_error with
      | Some e => raise (LibError e)
      | None => mret (digest_builder, streamed_bytes)
      end
  | (chunk, tell) :: rest =>
      let streamed_bytes := tell in
      try_except (fh_write target_full_path k chunk)
        (fun e =>
           match e with
           | LibError (IOError errno) =>
               Some (raise (CondaError write_failed_message
                              [("target_path", VStr target_full_path);
                               ("errno", VInt errno)]))
           | _ => None
           end);;
      emit (DigestUpdate chunk);;
      let digest_builder := digest_builder ++ [chunk] in
      when (truthy content_length
            && (0 <=? streamed_bytes)%Z && (streamed_bytes <=? content_length)%Z)
           (emit (FetchUpdate streamed_bytes));;
      stream_loop target_full_path content_length rest stream_error
                  (S k) digest_builder streamed_bytes
  end.

(** Lines 59-107: the [with SingleThreadCondaSession() as session] block.
    It hands the digest builder to the code after it. *)
Definition fetch (url target_full_path : string) : M (list bytes) :=
  with_ session_enter session_exit (fun _ =>
    '(resp, stream_error) ← session_get url;
    raise_for_status resp;;
    content_length ← declared_length resp;
    set_content_length content_length;;
    when (truthy content_length)
         (emit (FetchStart (str_take 14 (basename target_full_path)) content_length));;
    try_except
      ('(digest_builder, streamed_bytes) ←
          with_ (open_wb target_full_path) (file_close target_full_path) (fun _ =>
            stream_loop target_full_path content_length (body resp) stream_error
                        0 [] 0%Z);
       if (truthy content_length && negb (streamed_bytes =? content_length)%Z)
       then raise (CondaError length_mismatch_message
                     [("url", VStr url);
                      ("target_path", VStr target_full_path);
                      ("content_length", VInt content_length);
                      ("downloaded_bytes", VInt streamed_bytes)])
       else mret digest_builder)
      (fun e => if is_io_error e then Some (raise e) else None)).

(** Lines 109-113. *)
Definition verify (url target_full_path : string) (md5sum : option string)
    (digest_builder : list bytes) : M unit :=
  let actual_md5sum := MD5.hexdigest (concat digest_builder) in
  if (truthy_str md5sum && negb (String.eqb actual_md5sum (default "" md5sum)))
  then raise (MD5MismatchError url target_full_path (default "" md5sum) actual_md5sum)
  else mret tt.

(** Lines 115-138: the [except] clauses of the outer [try]. *)
Definition translate (url : string) (e : exn) : option (M unit) :=
  match e with
  | LibError (InvalidSchema msg) =>
      Some (if contains "SOCKS" msg
            then raise (CondaDependencyError socks_message)
            else raise e)
  | LibError ((ConnectionError r | HTTPError r | SSLError r) as cause) =>
      Some (raise (CondaHTTPError help_message url
                     (status_code <$> r) (reason <$> r) (elapsed <$> r) r cause))
  | _ => None
  end.

(** Lines 139-141: the [finally] clause. *)
Definition finalize : M unit :=
  content_length ← get_content_length;
  when (truthy (default 0%Z content_length)) (emit FetchStop).

Definition download_M (url target_full_path : string) (md5sum : option string) : M unit :=
  target_exists ← exists_ target_full_path;
  when target_exists
       (maybe_raise (BasicClobberError target_full_path url) (context env));;
  when (negb (ssl_verify (context env))) disable_ssl_verify_warning;;
  try_finally
    (try_except
       (digest_builder ← fetch url target_full_path;
        verify url target_full_path md5sum digest_builder)
       (translate url))
    finalize.

(** One call of [download], started with [content_length = None]. *)
Definition download (url target_full_path : string) (md5sum : option string)
    (w : World) : outcome unit * World * list event :=
  let '(r, s, t) := download_M url target_full_path md5sum (mkFrame w None) in
  (r, world s, t).

End Download.

(** ** Concurrent callers of [SingleThreadCondaSession]

    Threads that each run [with SingleThreadCondaSession() as session: ...],
    interleaved statement by statement.  A thread is named by its index;
    the instance it constructs carries the same number. *)

Module Threads.

Inductive pc : Type :=
| Calling                                   (* before [__enter__] *)
| Checked (seen : option nat)               (* line 34 done *)
| Acquiring (session : nat)                 (* lines 35-36 done, at line 37 *)
| InBlock (session : nat)                   (* lock taken, running the block *)
| Exiting (session : nat) (raised : bool)   (* block left, at line 41 *)
| Finished (raised : bool).                 (* lock given back, outcome delivered *)

(** The class attributes [_mutex] (is it taken?) and [_session]. *)
Record shared : Type := mkShared {
  mutex : bool;
  cached : option nat
}.

Record config : Type := mkConfig {
  attrs : shared;
  threads : list pc
}.

(** One statement of thread [i]. *)
Inductive thread_step (i : nat) : shared * pc -> shared * pc -> Prop :=
| step_read g :
    thread_step i (g, Calling) (g, Checked (cached g))
| step_install g :
    thread_step i (g, Checked None) (mkShared (mutex g) (Some i), Acquiring i)
| step_reuse g j :
    thread_step i (g, Checked (Some j)) (g, Acquiring j)
| step_acquire g j :
    mutex g = false ->
    thread_step i (g, Acquiring j) (mkShared true (cached g), InBlock j)
| step_block_done g j raised :
    thread_step i (g, InBlock j) (g, Exiting j raised)
| step_release g j raised :
    thread_step i (g, Exiting j raised) (mkShared false (cached g), Finished raised).

Inductive step : config -> config -> Prop :=
| step_thread i g g' p p' ths :
    ths !! i = Some p ->
    thread_step i (g, p) (g', p') ->
    step (mkConfig g ths) (mkConfig g' (<[i := p']> ths)).

Definition initial (n : nat) : config :=
  mkConfig (mkShared false None) (replicate n Calling).

Definition reachable (n : nat) (c : config) : Prop := rtc step (initial n) c.

(** A thread is in the session from the moment [acquire] returns until
    [release] is called. *)
Definition in_session (p : pc) : bool :=
  match p with
  | InBlock _ | Exiting _ _ => true
  | _ => false
  end.


End Threads.

(** ** Reading a trace *)

Definition writes_of (path : string) (t : list event) : list bytes :=
  omap (fun ev => match ev with
                  | FileWrite p c => if String.eqb p path then Some c else None
                  | _ => None
                  end) t.

Definition updates_of (t : list event) : list bytes :=
  omap (fun ev => match ev with DigestUpdate c => Some c | _ => None end) t.

Definition progress_of (t : list event) : list Z :=
  omap (fun ev => match ev with FetchUpdate n => Some n | _ => None end) t.

Definition is_get (ev : event) : bool :=
  match ev with SessionGet _ => true | _ => false end.

Definition is_lock (ev : event) : bool :=
  match ev with MutexAcquire | MutexRelease => true | _ => false end.

Definition is_fetch (ev : event) : bool :=
  match ev with FetchStart _ _ | FetchUpdate _ | FetchStop => true | _ => false end.

Definition is_start_stop (ev : event) : bool :=
  match ev with FetchStart _ _ | FetchStop => true | _ => false end.

(** [streamed_bytes] after a loop over [chunks] that began with [sb]. *)
Definition last_tell (sb : Z) (chunks : list (bytes * Z)) : Z :=
  default sb (last (map snd chunks)).

(** The test of line 87. *)
Definition in_range (cl : Z) (n : Z) : bool :=
  (truthy cl && (0 <=? n)%Z && (n <=? cl)%Z)%bool.

Definition get_calls (t : list event) : nat := length (List.filter is_get t).

(** Events the streaming loop can log. *)
Definition loop_event (ev : event) : bool :=
  match ev with
  | FileWrite _ _ | DigestUpdate _ | FetchUpdate _ => true
  | _ => false
  end.

(** ** The exit paths of a call, spelled out *)

(** The frame after one successful [fh.write]. *)
Definition write_chunk (target : string) (chunk : bytes) (s : Frame) : Frame :=
  mkFrame (mkWorld (<[target := default [] (fs (world s) !! target) ++ chunk]> (fs (world s)))
                   (session_cached (world s)))
          (content_length s).

Definition enter_events (w : World) (url : string) : list event :=
  (if session_cached w then [] else [SessionInit]) ++ [MutexAcquire; SessionGet url].

Definition entered (w : World) : World := mkWorld (fs w) true.

Definition opened (target : string) (w : World) : World :=
  mkWorld (<[target := []]> (fs w)) true.

Definition start_events (target : string) (cl : Z) : list event :=
  if truthy cl then [FetchStart (str_take 14 (basename target)) cl] else [].

Definition stop_events (cl : option Z) : list event :=
  if truthy (default 0%Z cl) then [FetchStop] else [].

Definition length_error (url target : string) (cl sb : Z) : exn :=
  CondaError length_mismatch_message
    [("url", VStr url); ("target_path", VStr target);
     ("content_length", VInt cl); ("downloaded_bytes", VInt sb)].

Definition write_error (target : string) (errno : Z) : exn :=
  CondaError write_failed_message
    [("target_path", VStr target); ("errno", VInt errno)].

(** [raise_for_status] raises on this response. *)
Definition status_fails (resp : Response) : bool :=
  ((400 <=? status_code resp) && (status_code resp <? 600))%Z.

(** The value of [int(resp.headers.get('Content-Length', 0))]; [None] when
    [int] raises. *)
Definition header_length (resp : Response) : option Z :=
  match headers_get "Content-Length" (headers resp) with
  | None => Some 0%Z
  | Some v => int_of_str v
  end.

(** The [ValueError] [int] raises for the header of [resp]. *)
Definition bad_int (resp : Response) : exn :=
  LibError (ValueError
              (int_error_message
                 (default "" (headers_get "Content-Length" (headers resp))))).

(** What the outer [except] clauses turn an exception into. *)
Definition translated (url : string) (e : exn) : exn :=
  match e with
  | LibError (InvalidSchema msg) =>
      if contains "SOCKS" msg then CondaDependencyError socks_message else e
  | LibError ((ConnectionError r | HTTPError r | SSLError r) as cause) =>
      CondaHTTPError help_message url
        (status_code <$> r) (reason <$> r) (elapsed <$> r) r cause
  | _ => e
  end.

(** The outcome of lines 109-113 for a given digest builder. *)
Definition verified (url target : string) (md5sum : option string)
    (db : list bytes) : outcome unit :=
  if (truthy_str md5sum
      && negb (String.eqb (MD5.hexdigest (concat db)) (default "" md5sum)))
  then Raise (MD5MismatchError url target (default "" md5sum)
                (MD5.hexdigest (concat db)))
  else Return tt.

(** The precondition check of lines 51-52 stops the call. *)
Definition blocked (env : Env) (target : string) (w : World) : bool :=
  bool_decide (is_Some (fs w !! target))
  && match path_conflict (context env) with Prevent => true | Warn => false end.

(** What is logged before the [try] when the call is let through. *)
Definition pre_events (env : Env) (url target : string) (w : World) : list event :=
  (if bool_decide (is_Some (fs w !! target))
   then [PrintClobberWarning target url] else []) ++
  (if ssl_verify (context env) then [] else [WarningsIgnoreInsecure]).

(** Control reaches the end of the response body: the precondition check
    lets the call through, the GET returns [resp] with a status that is not
    an error, the header parses to [cl], the file opens, every write
    succeeds and the body iterator ends without raising. *)
Definition stream_ends (env : Env) (url target : string) (w : World)
    (resp : Response) (cl : Z) : Prop :=
  blocked env target w = false /\
  http_get env url = GetReturns resp None /\
  status_fails resp = false /\
  header_length resp = Some cl /\
  open_fault env target = None /\
  (forall k, (k < length (body resp))%nat -> write_fault env k = None).

(** Line 65 is reached and assigns the non-zero [cl]. *)
Definition observed (env : Env) (url target : string) (w : World) (cl : Z) : Prop :=
  blocked env target w = false /\
  exists resp se,
    http_get env url = GetReturns resp se /\
    status_fails resp = false /\
    header_length resp = Some cl /\
    cl <> 0%Z.

(** The exceptions the clause of line 127 names. *)
Definition is_http_failure (e : lib_exn) : bool :=
  match e with
  | ConnectionError _ | HTTPError _ | SSLError _ => true
  | _ => false
  end.

(** [e.response]. *)
Definition response_of (e : lib_exn) : option Response :=
  match e with
  | ConnectionError r | HTTPError r | SSLError r => r
  | _ => None
  end.

(** The GET fails with [cause]: [session.get] raises it,
    [raise_for_status] raises it for an error status, or the body iterator
    raises it once the chunks before it have been written. *)
Inductive get_failure (env : Env) (url target : string) : lib_exn -> Prop :=
| get_raised e :
    http_get env url = GetRaises e ->
    get_failure env url target e
| error_status resp se :
    http_get env url = GetReturns resp se ->
    status_fails resp = true ->
    get_failure env url target (HTTPError (Some resp))
| stream_raised resp e cl :
    http_get env url = GetReturns resp (Some e) ->
    status_fails resp = false ->
    header_length resp = Some cl ->
    open_fault env target = None ->
    (forall k, (k < length (body resp))%nat -> write_fault env k = None) ->
    get_failure env url target e.

(** The request fails before line 65 assigns [content_length]: [session.get]
    raises, [raise_for_status] raises, or [int] rejects the header. *)
Definition request_fails (env : Env) (url : string) (e : exn) : Prop :=
  (exists le, http_get env url = GetRaises le /\ e = LibError le) \/
  (exists resp se, http_get env url = GetReturns resp se /\
                   status_fails resp = true /\
                   e = LibError (HTTPError (Some resp))) \/
  (exists resp se, http_get env url = GetReturns resp se /\
                   status_fails resp = false /\
                   header_length resp = None /\ e = bad_int resp).

(** What the call ends with once the loop ended with [r]: lines 90-101,
    then lines 109-113, then the outer [except] clauses. *)
Definition after_stream (url target : string) (md5sum : option string) (cl : Z)
    (r : outcome (list bytes * Z)) : outcome unit :=
  match r with
  | Return (db, sb) =>
      if (truthy cl && negb (sb =? cl)%Z)
      then Raise (length_error url target cl sb)
      else verified url target md5sum db
  | Raise e => Raise (translated url e)
  end.

(** Every way a call can end, with the world and the log it leaves. *)
Inductive exit_path (env : Env) (url target : string) (md5sum : option string)
    (w : World) : outcome unit -> World -> list event -> Prop :=
| exit_clobber :
    blocked env target w = true ->
    exit_path env url target md5sum w (Raise (BasicClobberError target url)) w []
| exit_request e :
    blocked env target w = false ->
    request_fails env url e ->
    exit_path env url target md5sum w
      (Raise (translated url e)) (entered w)
      (pre_events env url target w ++ enter_events w url ++ [MutexRelease])
| exit_open resp se cl errno :
    blocked env target w = false ->
    http_get env url = GetReturns resp se ->
    status_fails resp = false ->
    header_length resp = Some cl ->
    open_fault env target = Some errno ->
    exit_path env url target md5sum w
      (Raise (LibError (IOError errno))) (entered w)
      (pre_events env url target w ++ enter_events w url ++ start_events target cl ++
       [MutexRelease] ++ stop_events (Some cl))
| exit_streamed resp se cl r s' t :
    blocked env target w = false ->
    http_get env url = GetReturns resp se ->
    status_fails resp = false ->
    header_length resp = Some cl ->
    open_fault env target = None ->
    stream_loop env target cl (body resp) se 0 [] 0%Z
                (mkFrame (opened target w) (Some cl)) = (r, s', t) ->
    exit_path env url target md5sum w
      (after_stream url target md5sum cl r) (world s')
      (pre_events env url target w ++ enter_events w url ++ start_events target cl ++
       FileOpen target :: t ++ [FileClose target; MutexRelease] ++ stop_events (Some cl)).

(** ** Concrete calls *)

Module Scenario.

Definition url : string := "https://repo.example.org/pkgs/numpy-1.11.3-py35_0.tar.bz2".
Definition target : string := "/opt/conda/pkgs/numpy-1.11.3-py35_0.tar.bz2".

Definition ctx : Context := mkContext true Prevent.

Definition serve (o : get_outcome) : Env :=
  mkEnv ctx (fun _ => o) (fun _ => None) (fun _ => None).

Definition empty_disk : World := mkWorld ∅ false.
Definition taken_disk : World := mkWorld {[ target := [x50; x4b]%byte ]} true.

(** Four bytes declared, four bytes sent in two chunks. *)
Definition resp_ok : Response :=
  mkResponse 200 "OK" 1500 [("Content-Length", "4")]
    [([x61; x62]%byte, 2%Z); ([x63; x64]%byte, 4%Z)].

(** 1024 bytes declared, the connection closes after 900. *)
Definition resp_short : Response :=
  mkResponse 200 "OK" 1500 [("content-length", "1024")]
    [([x61; x62]%byte, 450%Z); ([x63; x64]%byte, 900%Z)].

(** Four bytes on the wire that decode to six. *)
Definition resp_encoded : Response :=
  mkResponse 200 "OK" 1500 [("Content-Encoding", "gzip"); ("Content-Length", "4")]
    [([x61; x61; x61; x61; x61; x61]%byte, 4%Z)].

Definition resp_zero : Response :=
  mkResponse 200 "OK" 1500 [("Content-Length", "0")] [([x61; x62]%byte, 2%Z)].

Definition resp_not_modified : Response :=
  mkResponse 304 "Not Modified" 800 [] [].

Definition resp_not_found : Response :=
  mkResponse 404 "Not Found" 800 [("Content-Length", "9")] [].

Definition md5_abcd : string := "e2fc714c4727ee9395f324cd2e7f331f".
Definition md5_of_nothing : string := "d41d8cd98f00b204e9800998ecf8427e".

(** Two callers; the first holds the session, the second waits for it. *)
Definition one_inside : Threads.config :=
  Threads.mkConfig (Threads.mkShared true (Some 0%nat))
                   [Threads.InBlock 0; Threads.Acquiring 0].

End Scenario.

(** ** Further readings of a call and of its log *)

(** Control reaches the streaming loop: the precondition check lets the
    call through, the GET returns [resp] with a status that is not an
    error, the header parses to [cl] and the destination opens. *)
Definition stream_starts (env : Env) (url target : string) (w : World)
    (resp : Response) (se : option lib_exn) (cl : Z) : Prop :=
  blocked env target w = false /\
  http_get env url = GetReturns resp se /\
  status_fails resp = false /\
  header_length resp = Some cl /\
  open_fault env target = None.

Definition is_open (ev : event) : bool :=
  match ev with FileOpen _ => true | _ => false end.

Definition is_init (ev : event) : bool :=
  match ev with SessionInit => true | _ => false end.

Definition is_ssl_warning (ev : event) : bool :=
  match ev with WarningsIgnoreInsecure => true | _ => false end.

(** What is done with the transport, the file and the digest. *)
Definition is_transfer (ev : event) : bool :=
  match ev with
  | SessionGet _ | FileOpen _ | FileWrite _ _ | FileClose _ | DigestUpdate _ => true
  | _ => false
  end.

(** The call ends with an error of the local disk: the [CondaError] for a
    failed write, or an [IOError] or [OSError] that was let through. *)
Definition is_io_outcome (r : outcome unit) : bool :=
  match r with
  | Raise (CondaError m _) => String.eqb m write_failed_message
  | Raise (LibError (IOError _ | OSError _)) => true
  | _ => false
  end.

(** The exceptions some clause of the outer [try] names. *)
Definition named_by_clause (e : lib_exn) : bool :=
  match e with
  | ConnectionError _ | HTTPError _ | SSLError _ | InvalidSchema _ => true
  | _ => false
  end.

(** Statements a caller of the session still has to run. *)
Definition thread_rank (p : Threads.pc) : nat :=
  match p with
  | Threads.Calling => 5
  | Threads.Checked _ => 4
  | Threads.Acquiring _ => 3
  | Threads.InBlock _ => 2
  | Threads.Exiting _ _ => 1
  | Threads.Finished _ => 0
  end.

(** Statements all callers together still have to run. *)
Definition total_rank (c : Threads.config) : nat :=
  sum_list (thread_rank <$> Threads.threads c).

Definition finished (p : Threads.pc) : bool :=
  match p with Threads.Finished _ => true | _ => false end.

(** The instance a caller works with, once it has one. *)
Definition session_of (p : Threads.pc) : option nat :=
  match p with
  | Threads.Checked seen => seen
  | Threads.Acquiring j | Threads.InBlock j | Threads.Exiting j _ => Some j
  | _ => None
  end.

(** While the lock is taken, some caller is in the session. *)
Definition held_by_someone (c : Threads.config) : Prop :=
  Threads.mutex (Threads.attrs c) = true ->
  exists i p, Threads.threads c !! i = Some p /\ Threads.in_session p = true.

(** The instances in use are instances some caller constructed. *)
Definition sessions_valid (n : nat) (c : Threads.config) : Prop :=
  length (Threads.threads c) = n /\
  (forall j, Threads.cached (Threads.attrs c) = Some j -> (j < n)%nat) /\
  (forall i p j, Threads.threads c !! i = Some p -> session_of p = Some j ->
                 (j < n)%nat /\ is_Some (Threads.cached (Threads.attrs c))).

(** ** More concrete calls *)

Module Faults.

Import Scenario.

(** The disk fills up at the second write. *)
Definition env_disk_full : Env :=
  mkEnv ctx (fun _ => GetReturns resp_ok None) (fun _ => None)
        (fun k => if Nat.eqb k 1 then Some 28%Z else None).

(** The destination directory is not writable. *)
Definition env_no_permission : Env :=
  mkEnv ctx (fun _ => GetReturns resp_ok None) (fun _ => Some 13%Z) (fun _ => None).

Definition resp_bad_header : Response :=
  mkResponse 200 "OK" 1500 [("Content-Length", "12a")] [([x61]%byte, 1%Z)].

Definition socks_missing : lib_exn :=
  InvalidSchema "Missing dependencies for SOCKS support.".

Definition read_timeout : lib_exn := OtherRequestException "ReadTimeout".

(** Certificate checks switched off, path conflicts downgraded. *)
Definition env_lenient (o : get_outcome) : Env :=
  mkEnv (mkContext false Warn) (fun _ => o) (fun _ => None) (fun _ => None).

(** One caller that has come and gone, its block having raised. *)
Definition one_done : Threads.config :=
  Threads.mkConfig (Threads.mkShared false (Some 0%nat)) [Threads.Finished true].

End Faults.

(** * Properties *)

(** ** The built-ins behave like Python's on sample inputs *)

Example md5_empty : MD5.hexdigest [] = "d41d8cd98f00b204e9800998ecf8427e"%string.
Proof. vm_compute. reflexivity. Qed.

Example md5_abc :
  MD5.hexdigest [x61; x62; x63]%byte = "900150983cd24fb0d6963f7d28e17f72"%string.
Proof. vm_compute. reflexivity. Qed.

Example md5_two_blocks :
  MD5.hexdigest (repeat x61%byte 70) = "0f5c6c4e740bfcc08c3c26ccb2673d46"%string.
Proof. vm_compute. reflexivity. Qed.

Example int_of_str_examples :
  int_of_str "1024" = Some 1024%Z /\ int_of_str "0" = Some 0%Z /\
  int_of_str " -17 " = Some (-17)%Z /\ int_of_str "" = None /\
  int_of_str "12a" = None /\ int_of_str "+007" = Some 7%Z.
Proof. repeat split. Qed.

Example int_of_str_accepts_what_int_accepts :
  int_of_str "1_000" = Some 1000%Z /\ int_of_str "0_7" = Some 7%Z /\
  int_of_str "_1" = None /\ int_of_str "1_" = None /\ int_of_str "1__0" = None /\
  int_of_str "- 5" = None /\ int_of_str "1 2" = None /\
  int_of_str (String (ascii_of_nat 160) "5") = Some 5%Z /\
  int_of_str (String (ascii_of_nat 28) "7") = None.
Proof. repeat split. Qed.

Example int_error_message_examples :
  int_error_message "12a" = "invalid literal for int() with base 10: '12a'" /\
  int_error_message "" = "invalid literal for int() with base 10: ''" /\
  int_error_message "a'b"
    = "invalid literal for int() with base 10: "
      +:+ String double_quote ("a'b" +:+ String double_quote "") /\
  int_error_message (String (ascii_of_nat 9) "x")
    = "invalid literal for int() with base 10: '\tx'".
Proof. repeat split. Qed.

Example basename_examples :
  basename "/opt/pkgs/numpy-1.11.3-py35_0.tar.bz2" = "numpy-1.11.3-py35_0.tar.bz2" /\
  basename "pkgs/" = "" /\ basename "a.tar" = "a.tar" /\
  str_take 14 (basename "/opt/pkgs/numpy-1.11.3-py35_0.tar.bz2") = "numpy-1.11.3-p".
Proof. repeat split. Qed.

Example contains_examples :
  contains "SOCKS" "Missing dependencies for SOCKS support." = true /\
  contains "SOCKS" "No connection adapters were found" = false.
Proof. split; reflexivity. Qed.

Example headers_get_ignores_case :
  headers_get "Content-Length" [("Server", "nginx"); ("content-length", "12")] = Some "12".
Proof. reflexivity. Qed.

Lemma messages_differ : write_failed_message <> length_mismatch_message.
Proof. intros H. vm_compute in H. discriminate H. Qed.

Arguments MD5.hexdigest : simpl never.
Arguments int_error_message : simpl never.
Arguments str_take : simpl never.
Arguments basename : simpl never.
Opaque write_failed_message length_mismatch_message socks_message help_message.

Ltac unfold_M :=
  unfold with_, when in *;
  unfold mbind, M_bind, mret, M_ret, bind, ret, raise, emit, try_except,
    try_finally, get_world, put_world in *.

Lemma truthy_true cl : truthy cl = true <-> cl <> 0%Z.
Proof. unfold truthy. destruct (Z.eqb_spec cl 0); cbn; split; auto; congruence. Qed.

(** ** The streaming loop *)

Section LoopFacts.

Variable env : Env.

Lemma stream_loop_nil target cl se k db sb s :
  stream_loop env target cl [] se k db sb s =
  match se with
  | Some e => (Raise (LibError e), s, [])
  | None => (Return (db, sb), s, [])
  end.
Proof. simpl. destruct se; reflexivity. Qed.

Lemma stream_loop_cons target cl c tl rest se k db sb s :
  stream_loop env target cl ((c, tl) :: rest) se k db sb s =
  match write_fault env k with
  | Some errno => (Raise (write_error target errno), s, [])
  | None =>
      let '(r, s', t) :=
        stream_loop env target cl rest se (S k) (db ++ [c]) tl (write_chunk target c s) in
      (r, s', FileWrite target c :: DigestUpdate c ::
              (if in_range cl tl then [FetchUpdate tl] else []) ++ t)
  end.
Proof.
  cbn [stream_loop]. unfold fh_write, in_range, write_error. unfold_M.
  destruct (write_fault env k) as [errno|]; [reflexivity|].
  cbn.
  destruct (truthy cl && (0 <=? tl)%Z && (tl <=? cl)%Z); cbn;
  fold (write_chunk target c s);
  destruct (stream_loop env target cl rest se (S k) (db ++ [c]) tl (write_chunk target c s))
    as [[r s'] t]; reflexivity.
Qed.

Lemma last_tell_cons sb c tl rest : last_tell sb ((c, tl) :: rest) = last_tell tl rest.
Proof.
  unfold last_tell. cbn [map snd]. rewrite last_cons.
  destruct (last (map snd rest)); reflexivity.
Qed.

Lemma writes_of_cons_write target c t :
  writes_of target (FileWrite target c :: t) = c :: writes_of target t.
Proof. unfold writes_of. cbn. rewrite String.eqb_refl. reflexivity. Qed.

(** What an iteration leaves alone, whatever way the loop ends. *)
Lemma stream_loop_frame target cl chunks se :
  forall k db sb s r s' t,
    stream_loop env target cl chunks se k db sb s = (r, s', t) ->
    content_length s' = content_length s /\
    session_cached (world s') = session_cached (world s) /\
    (forall p, p <> target -> fs (world s') !! p = fs (world s) !! p) /\
    (forall old, fs (world s) !! target = Some old ->
                 fs (world s') !! target = Some (old ++ concat (updates_of t))) /\
    writes_of target t = updates_of t /\
    Forall (fun ev => loop_event ev = true) t /\
    (truthy cl = false -> progress_of t = []).
Proof.
  induction chunks as [|[c tl] rest IH]; intros k db sb s r s' t Hrun.
  - rewrite stream_loop_nil in Hrun.
    assert (s' = s /\ t = []) as [-> ->] by (destruct se; inversion Hrun; auto).
    repeat split; auto. intros old ->. cbn. by rewrite app_nil_r.
  - rewrite stream_loop_cons in Hrun.
    destruct (write_fault env k) as [errno|].
    { inversion Hrun; subst. repeat split; auto.
      intros old ->. cbn. by rewrite app_nil_r. }
    destruct (stream_loop env target cl rest se (S k) (db ++ [c]) tl (write_chunk target c s))
      as [[r1 s1] t1] eqn:Hrest.
    inversion Hrun; subst; clear Hrun.
    destruct (IH _ _ _ _ _ _ _ Hrest) as (Hcl & Hsc & Hother & Hfile & Hwu & Hev & Hprog).
    cbn in Hcl, Hsc.
    split; [exact Hcl|]. split; [exact Hsc|].
    assert (Hup : forall u, updates_of (FileWrite target c :: DigestUpdate c ::
                      (if in_range cl tl then [FetchUpdate tl] else []) ++ u)
                    = c :: updates_of u).
    { intros u. destruct (in_range cl tl); reflexivity. }
    split; [|split; [|split; [|split]]].
    + intros p Hp. rewrite (Hother p Hp). cbn. by rewrite lookup_insert_ne.
    + intros old Hold. rewrite Hup.
      rewrite (Hfile (old ++ c)).
      * cbn. by rewrite <- app_assoc.
      * cbn. rewrite Hold. cbn. by rewrite lookup_insert_eq.
    + rewrite writes_of_cons_write, Hup. f_equal.
      rewrite <- Hwu. unfold writes_of. cbn.
      destruct (in_range cl tl); reflexivity.
    + repeat constructor. destruct (in_range cl tl); cbn; auto.
    + intros Hz. specialize (Hprog Hz). unfold in_range. rewrite Hz. cbn. exact Hprog.
Qed.

(** How the loop can end, and what it has done when it ends normally. *)
Lemma stream_loop_result target cl chunks se :
  forall k db sb s r s' t,
    stream_loop env target cl chunks se k db sb s = (r, s', t) ->
    match r with
    | Return (db', sb') =>
        se = None /\
        (forall j, (j < length chunks)%nat -> write_fault env (k + j) = None) /\
        db' = db ++ map fst chunks /\
        updates_of t = map fst chunks /\
        sb' = last_tell sb chunks /\
        progress_of t = List.filter (in_range cl) (map snd chunks)
    | Raise e =>
        (exists j errno,
            (j < length chunks)%nat /\ write_fault env (k + j) = Some errno /\
            e = write_error target errno) \/
        (exists le, se = Some le /\ e = LibError le)
    end.
Proof.
  induction chunks as [|[c tl] rest IH]; intros k db sb s r s' t Hrun.
  - rewrite stream_loop_nil in Hrun.
    destruct se; inversion Hrun; subst.
    + right. eauto.
    + repeat split; auto; [cbn; lia | by rewrite app_nil_r].
  - rewrite stream_loop_cons in Hrun.
    destruct (write_fault env k) as [errno|] eqn:Hw.
    { inversion Hrun; subst. left. exists 0%nat, errno.
      rewrite Nat.add_0_r. cbn. repeat split; auto; lia. }
    destruct (stream_loop env target cl rest se (S k) (db ++ [c]) tl (write_chunk target c s))
      as [[r1 s1] t1] eqn:Hrest.
    inversion Hrun; subst; clear Hrun.
    specialize (IH _ _ _ _ _ _ _ Hrest).
    destruct r as [[db' sb']|e].
    + destruct IH as (Hse & Hnf & Hdb & Hup & Hsb & Hprog).
      split; [exact Hse|]. split; [|split; [|split; [|split]]].
      * intros [|j] Hj; [by rewrite Nat.add_0_r|].
        cbn in Hj. replace (k + S j)%nat with (S k + j)%nat by lia. apply Hnf. lia.
      * rewrite Hdb, <- app_assoc. reflexivity.
      * destruct (in_range cl tl); cbn; f_equal; exact Hup.
      * by rewrite last_tell_cons.
      * cbn [map snd List.filter].
        destruct (in_range cl tl) eqn:Hr; cbn; [f_equal|]; exact Hprog.
    + destruct IH as [(j & errno & Hj & Hf & He)|(le & Hse & He)].
      * left. exists (S j), errno. cbn.
        replace (k + S j)%nat with (S k + j)%nat by lia. repeat split; auto; lia.
      * right. eauto.
Qed.

(** Without faults the loop runs to the end of the body. *)
Lemma stream_loop_completes target cl chunks :
  forall k db sb s,
    (forall j, (j < length chunks)%nat -> write_fault env (k + j) = None) ->
    exists s' t,
      stream_loop env target cl chunks None k db sb s =
      (Return (db ++ map fst chunks, last_tell sb chunks), s', t).
Proof.
  induction chunks as [|[c tl] rest IH]; intros k db sb s Hnf.
  - rewrite stream_loop_nil. exists s, []. by rewrite app_nil_r.
  - rewrite stream_loop_cons.
    pose proof (Hnf 0%nat ltac:(cbn; lia)) as H0. rewrite Nat.add_0_r in H0. rewrite H0.
    destruct (IH (S k) (db ++ [c]) tl (write_chunk target c s)) as (s' & t & Heq).
    { intros j Hj. replace (S k + j)%nat with (k + S j)%nat by lia. apply Hnf. cbn. lia. }
    rewrite Heq. eexists _, _. rewrite last_tell_cons, <- app_assoc. reflexivity.
Qed.

(** A body iterator that raises makes the loop raise the same exception,
    unless a write failed first. *)
Lemma stream_loop_interrupted target cl chunks e :
  forall k db sb s,
    (forall j, (j < length chunks)%nat -> write_fault env (k + j) = None) ->
    exists s' t,
      stream_loop env target cl chunks (Some e) k db sb s = (Raise (LibError e), s', t).
Proof.
  intros k db sb s Hnf.
  destruct (stream_loop env target cl chunks (Some e) k db sb s) as [[r s'] t] eqn:Hrun.
  pose proof (stream_loop_result _ _ _ _ _ _ _ _ _ _ _ Hrun) as Hres.
  destruct r as [[db' sb']|ex].
  - destruct Hres as (Hse & _). discriminate Hse.
  - destruct Hres as [(j & errno & Hj & Hf & _)|(le & Hse & ->)].
    + rewrite (Hnf j Hj) in Hf. discriminate Hf.
    + inversion Hse; subst. eauto.
Qed.

End LoopFacts.

(** ** The call, phase by phase *)

Section RunFacts.

Variable env : Env.

(** The pure readings used in the statements agree with the code. *)

Lemma raise_for_status_run resp s :
  raise_for_status resp s =
  if status_fails resp
  then (Raise (LibError (HTTPError (Some resp))), s, [])
  else (Return tt, s, []).
Proof. unfold raise_for_status, status_fails. by destruct (_ && _). Qed.

Lemma declared_length_run resp s :
  declared_length resp s =
  match header_length resp with
  | Some n => (Return n, s, [])
  | None => (Raise (bad_int resp), s, [])
  end.
Proof.
  unfold declared_length, header_length, bad_int.
  destruct (headers_get _ _) as [v|]; [|reflexivity].
  by destruct (int_of_str v).
Qed.

Lemma verify_run url target md5sum db s :
  verify url target md5sum db s = (verified url target md5sum db, s, []).
Proof. unfold verify, verified. by destruct (_ && _). Qed.

Lemma translate_run url e s :
  match translate url e with
  | Some handler => handler s = (Raise (translated url e), s, [])
  | None => translated url e = e
  end.
Proof.
  destruct e as [| | | | |[r|r|r|msg|nm|n|n|msg]]; cbn; try reflexivity.
  by destruct (contains "SOCKS" msg).
Qed.

Lemma precondition_run url target s :
  (target_exists ← exists_ target;
   when target_exists
        (maybe_raise (BasicClobberError target url) (context env))) s =
  if blocked env target (world s)
  then (Raise (BasicClobberError target url), s, [])
  else (Return tt, s,
        if bool_decide (is_Some (fs (world s) !! target))
        then [PrintClobberWarning target url] else []).
Proof.
  unfold exists_, maybe_raise, blocked. unfold_M. cbn.
  destruct (bool_decide _), (path_conflict _); reflexivity.
Qed.

Lemma fetch_run url target s :
  fetch env url target s =
  let w := world s in
  match http_get env url with
  | GetRaises e =>
      (Raise (LibError e), mkFrame (entered w) (content_length s),
       enter_events w url ++ [MutexRelease])
  | GetReturns resp se =>
      if status_fails resp
      then (Raise (LibError (HTTPError (Some resp))),
            mkFrame (entered w) (content_length s),
            enter_events w url ++ [MutexRelease])
      else
        match header_length resp with
        | None =>
            (Raise (bad_int resp), mkFrame (entered w) (content_length s),
             enter_events w url ++ [MutexRelease])
        | Some cl =>
            match open_fault env target with
            | Some errno =>
                (Raise (LibError (IOError errno)), mkFrame (entered w) (Some cl),
                 enter_events w url ++ start_events target cl ++ [MutexRelease])
            | None =>
                let '(r, s', t) :=
                  stream_loop env target cl (body resp) se 0 [] 0%Z
                              (mkFrame (opened target w) (Some cl)) in
                (match r with
                 | Return (db, sb) =>
                     if (truthy cl && negb (sb =? cl)%Z)
                     then Raise (length_error url target cl sb)
                     else Return db
                 | Raise e => Raise e
                 end,
                 s',
                 enter_events w url ++ start_events target cl ++
                 FileOpen target :: t ++ [FileClose target; MutexRelease])
            end
        end
  end.
Proof.
  destruct s as [[files sc] cl0].
  unfold fetch, session_enter, session_exit, session_get, raise_for_status,
    declared_length, header_length, set_content_length, open_wb, file_close,
    enter_events, entered, opened, start_events, status_fails, bad_int, length_error.
  unfold_M. cbn.
  destruct sc; cbn;
  (destruct (http_get env url) as [e|resp se]; cbn; [reflexivity|]);
  (destruct ((400 <=? status_code resp)%Z && (status_code resp <? 600)%Z); cbn;
   [reflexivity|]);
  (destruct (headers_get "Content-Length" (headers resp)) as [v|]; cbn;
   [destruct (int_of_str v) as [cl|]; cbn; [|reflexivity]|]).
  all: try (destruct (truthy cl) eqn:Hcl; cbn).
  all: try (destruct (open_fault env target) as [errno|]; cbn; [reflexivity|]).
  all: try (match goal with
            | |- context [stream_loop ?a ?b ?c ?d ?e ?f ?g ?h ?i] =>
                destruct (stream_loop a b c d e f g h i) as [[[[db sb]|ex] s'] t]; cbn
            end).
  all: try (destruct (sb =? cl)%Z; cbn).
  all: try (destruct (sb =? 0)%Z; cbn).
  all: try (destruct (is_io_error ex); cbn).
  all: rewrite ?app_nil_r, <- ?app_assoc; reflexivity.
Qed.

Lemma download_run url target md5sum w :
  download env url target md5sum w =
  if blocked env target w
  then (Raise (BasicClobberError target url), w, [])
  else
    let '(r, s, t) := fetch env url target (mkFrame w None) in
    (match r with
     | Return db => verified url target md5sum db
     | Raise e => Raise (translated url e)
     end,
     world s,
     pre_events env url target w ++ t ++ stop_events (content_length s)).
Proof.
  unfold download, download_M, exists_, maybe_raise, disable_ssl_verify_warning,
    finalize, verify, get_content_length, blocked, pre_events, stop_events, verified.
  unfold_M. cbn.
  destruct (bool_decide (is_Some (fs w !! target)));
    destruct (path_conflict (context env)); cbn; try reflexivity.
  all: destruct (ssl_verify (context env)); cbn.
  all: destruct (fetch env url target (mkFrame w None)) as [[[db|e] s] t]; cbn.
  all: try (destruct (truthy_str md5sum
                      && negb (String.eqb (MD5.hexdigest (concat db)) (default "" md5sum)));
            cbn).
  all: try (destruct e as [| | | | |[r|r|r|msg|nm|n|n|msg]]; cbn;
            try destruct (contains "SOCKS" msg); cbn).
  all: destruct (truthy (default 0%Z (content_length s))); cbn.
  all: rewrite ?app_nil_r, <- ?app_assoc; reflexivity.
Qed.

(** A call ends in one of the four ways [exit_path] lists. *)
Lemma download_exit_path url target md5sum w :
  exit_path env url target md5sum w
    (download env url target md5sum w).1.1
    (download env url target md5sum w).1.2
    (download env url target md5sum w).2.
Proof.
  rewrite download_run.
  destruct (blocked env target w) eqn:Hb; [by constructor|].
  rewrite fetch_run. cbn [world content_length].
  destruct (http_get env url) as [e|resp se] eqn:Hget.
  { cbn. change (stop_events None) with (@nil event). rewrite app_nil_r.
    apply (exit_request _ _ _ _ _ (LibError e)); [exact Hb|]. left. eauto. }
  destruct (status_fails resp) eqn:Hst.
  { cbn. change (stop_events None) with (@nil event). rewrite app_nil_r.
    apply (exit_request _ _ _ _ _ (LibError (HTTPError (Some resp)))); [exact Hb|].
    right. left. eauto. }
  destruct (header_length resp) as [cl|] eqn:Hh.
  2:{ cbn. change (stop_events None) with (@nil event). rewrite app_nil_r.
      apply (exit_request _ _ _ _ _ (bad_int resp)); [exact Hb|].
      right. right. exists resp, se. auto. }
  destruct (open_fault env target) as [errno|] eqn:Ho.
  { cbn [fst snd world content_length]. rewrite <- !app_assoc.
    by eapply exit_open. }
  destruct (stream_loop env target cl (body resp) se 0 [] 0%Z
              (mkFrame (opened target w) (Some cl))) as [[r s'] t] eqn:Hloop.
  cbn [fst snd].
  destruct (stream_loop_frame _ _ _ _ _ _ _ _ _ _ _ _ Hloop) as (Hcl & _).
  cbn in Hcl. rewrite Hcl.
  replace (match
             match r with
             | Return (db, sb) =>
                 if truthy cl && negb (sb =? cl)%Z
                 then Raise (length_error url target cl sb)
                 else Return db
             | Raise e => Raise e
             end
           with
           | Return db => verified url target md5sum db
           | Raise e => Raise (translated url e)
           end) with (after_stream url target md5sum cl r).
  2:{ unfold after_stream. destruct r as [[db sb]|e]; [|reflexivity].
      destruct (truthy cl && negb (sb =? cl)%Z); reflexivity. }
  replace (pre_events env url target w ++
           (enter_events w url ++ start_events target cl ++
            FileOpen target :: t ++ [FileClose target; MutexRelease]) ++
           stop_events (Some cl))
    with (pre_events env url target w ++ enter_events w url ++ start_events target cl ++
          FileOpen target :: t ++ [FileClose target; MutexRelease] ++ stop_events (Some cl)).
  2:{ rewrite <- !app_assoc. cbn. rewrite <- !app_assoc. reflexivity. }
  by eapply exit_streamed.
Qed.

(** When control reaches the end of the body, the outcome is decided by
    the two checks alone. *)
Lemma download_stream_ends url target md5sum w resp cl :
  stream_ends env url target w resp cl ->
  exists s' t,
    stream_loop env target cl (body resp) None 0 [] 0%Z
      (mkFrame (opened target w) (Some cl))
    = (Return (map fst (body resp), last_tell 0 (body resp)), s', t) /\
    download env url target md5sum w =
    ((if (truthy cl && negb (last_tell 0 (body resp) =? cl)%Z)
      then Raise (length_error url target cl (last_tell 0 (body resp)))
      else verified url target md5sum (map fst (body resp))),
     world s',
     pre_events env url target w ++
     (enter_events w url ++ start_events target cl ++
      FileOpen target :: t ++ [FileClose target; MutexRelease]) ++
     stop_events (Some cl)).
Proof.
  intros (Hb & Hget & Hst & Hh & Ho & Hw).
  destruct (stream_loop_completes env target cl (body resp) 0 [] 0%Z
              (mkFrame (opened target w) (Some cl)) Hw) as (s' & t & Hloop).
  cbn [app] in Hloop.
  exists s', t. split; [exact Hloop|].
  rewrite download_run, Hb, fetch_run. cbn [world content_length].
  rewrite Hget, Hst, Hh, Ho, Hloop.
  destruct (stream_loop_frame _ _ _ _ _ _ _ _ _ _ _ _ Hloop) as (Hcl & _).
  cbn in Hcl. rewrite Hcl.
  destruct (truthy cl && negb (last_tell 0 (body resp) =? cl)%Z); reflexivity.
Qed.

End RunFacts.

(** ** Reading the log of a call *)

Lemma filter_loop_events (f : event -> bool) (t : list event) :
  (forall ev, loop_event ev = true -> f ev = false) ->
  Forall (fun ev => loop_event ev = true) t ->
  List.filter f t = [].
Proof.
  intros Hf. induction 1 as [|ev t Hev _ IH]; [reflexivity|].
  cbn. rewrite (Hf ev Hev). exact IH.
Qed.

Lemma filter_fetch_loop (t : list event) :
  Forall (fun ev => loop_event ev = true) t ->
  progress_of t = [] ->
  List.filter is_fetch t = [].
Proof.
  induction 1 as [|ev t Hev _ IH]; [reflexivity|].
  destruct ev; try discriminate Hev; cbn; auto. discriminate.
Qed.

Lemma filter_pre env url target w (f : event -> bool) :
  f (PrintClobberWarning target url) = false ->
  f WarningsIgnoreInsecure = false ->
  List.filter f (pre_events env url target w) = [].
Proof.
  intros H1 H2. unfold pre_events.
  destruct (bool_decide _), (ssl_verify _); cbn; rewrite ?H1, ?H2; reflexivity.
Qed.

Lemma omap_pre {A} env url target w (f : event -> option A) :
  f (PrintClobberWarning target url) = None ->
  f WarningsIgnoreInsecure = None ->
  omap f (pre_events env url target w) = [].
Proof.
  intros H1 H2. unfold pre_events.
  destruct (bool_decide _), (ssl_verify _); cbn; rewrite ?H1, ?H2; reflexivity.
Qed.

Lemma omap_streamed {A} (f : event -> option A) env url target w cl tl :
  (forall ev, loop_event ev = false -> f ev = None) ->
  omap f (pre_events env url target w ++ enter_events w url ++ start_events target cl ++
          FileOpen target :: tl ++ [FileClose target; MutexRelease] ++ stop_events (Some cl))
  = omap f tl.
Proof.
  intros Hf. rewrite !omap_app, omap_pre by (apply Hf; reflexivity).
  unfold enter_events, start_events, stop_events.
  destruct (session_cached w), (truthy cl) eqn:Hcl; cbn; rewrite ?Hcl; cbn;
    rewrite !Hf by reflexivity; rewrite !omap_app; cbn;
    rewrite !Hf by reflexivity; rewrite app_nil_r; reflexivity.
Qed.

Lemma filter_streamed (f : event -> bool) env url target w cl tl :
  List.filter f tl = [] ->
  List.filter f
    (pre_events env url target w ++ enter_events w url ++ start_events target cl ++
     FileOpen target :: tl ++ [FileClose target; MutexRelease] ++ stop_events (Some cl))
  = List.filter f
      (pre_events env url target w ++ enter_events w url ++ start_events target cl ++
       FileOpen target :: [FileClose target; MutexRelease] ++ stop_events (Some cl)).
Proof.
  intros Hloop.
  rewrite !List.filter_app. cbn [List.filter].
  rewrite !List.filter_app, Hloop. reflexivity.
Qed.

Lemma translated_lib_error url le :
  (forall m kw, translated url (LibError le) <> CondaError m kw) /\
  (forall u p x a, translated url (LibError le) <> MD5MismatchError u p x a).
Proof.
  split; intros; destruct le; cbn; try discriminate;
    destruct (contains "SOCKS" message); discriminate.
Qed.

Lemma request_fails_lib env url e :
  request_fails env url e -> exists le, e = LibError le.
Proof.
  intros [(le & _ & ->)|[(resp & se & _ & _ & ->)|(resp & se & _ & _ & _ & ->)]];
    unfold bad_int; eauto.
Qed.

Ltac trace_filter :=
  rewrite ?List.filter_app;
  rewrite ?filter_pre by reflexivity;
  unfold enter_events, start_events, stop_events;
  cbn [default from_option id].

Ltac last_of_trace :=
  repeat (rewrite last_app || rewrite last_cons); cbn.


Lemma translated_http_failure url cause :
  is_http_failure cause = true ->
  translated url (LibError cause) =
  CondaHTTPError help_message url
    (status_code <$> response_of cause) (reason <$> response_of cause)
    (elapsed <$> response_of cause) (response_of cause) cause.
Proof. destruct cause; try discriminate; reflexivity. Qed.

Lemma opened_lookup target w : fs (opened target w) !! target = Some [].
Proof. cbn. apply lookup_insert_eq. Qed.

(** ** The claims *)

Section Claims.

Variable env : Env.

(** C4.  When a file already exists at the destination and the policy is
    the default one, the call raises the clobber error with the world
    untouched and nothing logged: no GET was issued. *)
Theorem clobber_error_before_any_request url target md5sum w :
  is_Some (fs w !! target) ->
  path_conflict (context env) = Prevent ->
  download env url target md5sum w = (Raise (BasicClobberError target url), w, []) /\
  get_calls (download env url target md5sum w).2 = 0%nat.
Proof.
  intros Hex Hp.
  assert (download env url target md5sum w = (Raise (BasicClobberError target url), w, [])) as ->.
  { rewrite download_run. unfold blocked. rewrite Hp, bool_decide_eq_true_2 by exact Hex.
    reflexivity. }
  split; reflexivity.
Qed.

(** C1.  When the header gave a non-zero declared length and the byte
    count at the end of the body differs from it, the call never returns
    normally; and when control reaches the end of the body it raises the
    length-mismatch error carrying url, destination, declared length and
    streamed count. *)
Theorem length_mismatch_raises url target md5sum w resp se cl :
  http_get env url = GetReturns resp se ->
  header_length resp = Some cl ->
  cl <> 0%Z ->
  last_tell 0 (body resp) <> cl ->
  (download env url target md5sum w).1.1 <> Return tt /\
  (stream_ends env url target w resp cl ->
   (download env url target md5sum w).1.1 =
   Raise (CondaError length_mismatch_message
            [("url", VStr url); ("target_path", VStr target);
             ("content_length", VInt cl);
             ("downloaded_bytes", VInt (last_tell 0 (body resp)))])).
Proof.
  intros Hget Hh Hcl Hne.
  assert (Htest : (truthy cl && negb (last_tell 0 (body resp) =? cl)%Z) = true).
  { apply andb_true_intro. split; [by apply truthy_true|].
    apply negb_true_iff, Z.eqb_neq. exact Hne. }
  split.
  - rewrite download_run. destruct (blocked env target w); [cbn; congruence|].
    rewrite fetch_run. cbn [world content_length]. rewrite Hget.
    destruct (status_fails resp); [cbn; congruence|].
    rewrite Hh.
    destruct (open_fault env target); [cbn; congruence|].
    destruct (stream_loop env target cl (body resp) se 0 [] 0%Z
                (mkFrame (opened target w) (Some cl))) as [[r s'] t] eqn:Hloop.
    pose proof (stream_loop_result _ _ _ _ _ _ _ _ _ _ _ _ Hloop) as Hres.
    destruct r as [[db sb]|e]; [|cbn; congruence].
    destruct Hres as (_ & _ & _ & _ & -> & _).
    rewrite Htest. cbn. congruence.
  - intros Hends.
    destruct (download_stream_ends env url target md5sum w resp cl Hends) as (s' & t & _ & ->).
    rewrite Htest. reflexivity.
Qed.

(** C2.  When control reaches the verification step with an expected
    checksum that differs from the digest of the streamed chunks, the call
    raises [MD5MismatchError] with url, destination, expected and actual
    digest, whether there was no declared length or the byte count matched
    it exactly. *)
Theorem checksum_mismatch_raises url target m w resp cl :
  stream_ends env url target w resp cl ->
  cl = 0%Z \/ last_tell 0 (body resp) = cl ->
  m <> "" ->
  MD5.hexdigest (concat (map fst (body resp))) <> m ->
  (download env url target (Some m) w).1.1 =
  Raise (MD5MismatchError url target m (MD5.hexdigest (concat (map fst (body resp))))).
Proof.
  intros Hends Hlen Hm Hne.
  destruct (download_stream_ends env url target (Some m) w resp cl Hends) as (s' & t & _ & ->).
  assert ((truthy cl && negb (last_tell 0 (body resp) =? cl)%Z) = false) as ->.
  { destruct Hlen as [->| ->]; [reflexivity|].
    rewrite Z.eqb_refl. apply andb_false_r. }
  unfold verified. cbn [fst default].
  assert (truthy_str (Some m) = true) as -> by (destruct m; [done|reflexivity]).
  apply String.eqb_neq in Hne. unfold id. rewrite Hne. reflexivity.
Qed.

(** C3.  After a call that returns normally, the chunks written to the
    destination are, in content and order, the chunks fed to the digest
    builder (both are the chunks of the response body); the file holds
    their concatenation, so its MD5 digest is the digest the verification
    step computed. *)
Theorem written_chunks_are_hashed_chunks url target md5sum w :
  (download env url target md5sum w).1.1 = Return tt ->
  exists resp,
    http_get env url = GetReturns resp None /\
    writes_of target (download env url target md5sum w).2 = map fst (body resp) /\
    updates_of (download env url target md5sum w).2 = map fst (body resp) /\
    fs (download env url target md5sum w).1.2 !! target
      = Some (concat (writes_of target (download env url target md5sum w).2)) /\
    MD5.hexdigest <$> fs (download env url target md5sum w).1.2 !! target
      = Some (MD5.hexdigest (concat (updates_of (download env url target md5sum w).2))) /\
    verified url target md5sum (updates_of (download env url target md5sum w).2) = Return tt.
Proof.
  pose proof (download_exit_path env url target md5sum w) as Hpath.
  destruct (download env url target md5sum w) as [[r w'] t]. cbn [fst snd] in *.
  intros Hr.
  destruct Hpath as [| | |resp se cl rl s' tl Hb Hget Hst Hh Ho Hloop];
    try discriminate Hr.
  pose proof (stream_loop_result _ _ _ _ _ _ _ _ _ _ _ _ Hloop) as Hres.
  destruct (stream_loop_frame _ _ _ _ _ _ _ _ _ _ _ _ Hloop)
    as (_ & _ & _ & Hfile & Hwu & _ & _).
  destruct rl as [[db sb]|e]; [|discriminate Hr].
  destruct Hres as (-> & _ & Hdb & Hup & _ & _). cbn in Hdb. subst db.
  unfold after_stream in Hr.
  destruct (truthy cl && negb (sb =? cl)%Z); [discriminate Hr|].
  exists resp.
  assert (Hw : writes_of target
                 (pre_events env url target w ++ enter_events w url ++
                  start_events target cl ++ FileOpen target :: tl ++
                  [FileClose target; MutexRelease] ++ stop_events (Some cl))
               = map fst (body resp)).
  { unfold writes_of. rewrite omap_streamed.
    - fold (writes_of target tl). by rewrite Hwu.
    - intros [] Hev; try reflexivity; discriminate Hev. }
  assert (Hu : updates_of
                 (pre_events env url target w ++ enter_events w url ++
                  start_events target cl ++ FileOpen target :: tl ++
                  [FileClose target; MutexRelease] ++ stop_events (Some cl))
               = map fst (body resp)).
  { unfold updates_of. rewrite omap_streamed.
    - exact Hup.
    - intros [] Hev; try reflexivity; discriminate Hev. }
  rewrite Hw, Hu.
  rewrite (Hfile [] (opened_lookup target w)), Hup. cbn [app fmap option_fmap option_map].
  repeat split; auto.
Qed.

(** C5.  When control reaches the end of the body, the progress events
    carry exactly those values of the raw cursor [resp.raw.tell()] that lie
    within the declared length, and the length check compares the last
    value of that cursor with the declared length; the lengths of the
    chunks written and hashed play no part. *)
Theorem progress_counts_wire_bytes url target md5sum w resp cl :
  stream_ends env url target w resp cl ->
  progress_of (download env url target md5sum w).2
    = List.filter (in_range cl) (map snd (body resp)) /\
  (download env url target md5sum w).1.1 =
    if (truthy cl && negb (last_tell 0 (body resp) =? cl)%Z)
    then Raise (length_error url target cl (last_tell 0 (body resp)))
    else verified url target md5sum (map fst (body resp)).
Proof.
  intros Hends.
  destruct (download_stream_ends env url target md5sum w resp cl Hends)
    as (s' & t & Hloop & ->).
  cbn [fst snd]. split; [|reflexivity].
  pose proof (stream_loop_result _ _ _ _ _ _ _ _ _ _ _ _ Hloop) as Hres.
  cbn in Hres. destruct Hres as (_ & _ & _ & _ & _ & Hprog).
  rewrite <- Hprog. rewrite <- !app_assoc. cbn [app].
  unfold progress_of. rewrite <- !app_assoc. apply omap_streamed.
  intros [] Hev; try reflexivity; discriminate Hev.
Qed.

(** One GET per call that passes the precondition check, none otherwise:
    no path issues the request a second time. *)
Lemma one_get_per_call url target md5sum w :
  get_calls (download env url target md5sum w).2 =
  if blocked env target w then 0%nat else 1%nat.
Proof.
  pose proof (download_exit_path env url target md5sum w) as Hpath.
  destruct (download env url target md5sum w) as [[r w'] t]. cbn [fst snd] in *.
  unfold get_calls.
  destruct Hpath as [Hb|e Hb Hreq|resp se cl errno Hb Hget Hst Hh Ho
                    |resp se cl rl s' tl Hb Hget Hst Hh Ho Hloop]; rewrite Hb.
  - reflexivity.
  - trace_filter. destruct (session_cached w); reflexivity.
  - trace_filter. destruct (session_cached w), (truthy cl); reflexivity.
  - destruct (stream_loop_frame _ _ _ _ _ _ _ _ _ _ _ _ Hloop)
      as (_ & _ & _ & _ & _ & Hev & _).
    rewrite filter_streamed.
    + trace_filter. destruct (session_cached w), (truthy cl); reflexivity.
    + apply filter_loop_events; [|exact Hev]. by intros [].
Qed.

(** A transfer-start event is logged only by a call in which line 65
    assigned a non-zero declared length. *)
Lemma start_only_when_observed url target md5sum w :
  List.filter is_start_stop (download env url target md5sum w).2 = [] \/
  exists cl, observed env url target w cl.
Proof.
  pose proof (download_exit_path env url target md5sum w) as Hpath.
  destruct (download env url target md5sum w) as [[r w'] t]. cbn [fst snd] in *.
  destruct Hpath as [Hb|e Hb Hreq|resp se cl errno Hb Hget Hst Hh Ho
                    |resp se cl rl s' tl Hb Hget Hst Hh Ho Hloop].
  - by left.
  - left. trace_filter. destruct (session_cached w); reflexivity.
  - destruct (truthy cl) eqn:Hcl.
    + right. exists cl. split; [exact Hb|]. exists resp, se.
      by rewrite <- truthy_true.
    + left. trace_filter. rewrite Hcl. destruct (session_cached w); reflexivity.
  - destruct (truthy cl) eqn:Hcl.
    + right. exists cl. split; [exact Hb|]. exists resp, se.
      by rewrite <- truthy_true.
    + left.
      destruct (stream_loop_frame _ _ _ _ _ _ _ _ _ _ _ _ Hloop)
        as (_ & _ & _ & _ & _ & Hev & _).
      rewrite filter_streamed.
      * trace_filter. rewrite Hcl. destruct (session_cached w); reflexivity.
      * apply filter_loop_events; [|exact Hev]. by intros [].
Qed.

(** C6.  Once line 65 has assigned a non-zero declared length, the log of
    the call holds exactly one transfer-start event and exactly one
    transfer-stop event, in that order, and the stop event is the last
    thing logged, whatever the call ends with. *)
Theorem transfer_stop_on_every_exit url target md5sum w cl :
  observed env url target w cl ->
  List.filter is_start_stop (download env url target md5sum w).2
    = [FetchStart (str_take 14 (basename target)) cl; FetchStop] /\
  last (download env url target md5sum w).2 = Some FetchStop.
Proof.
  intros (Hb0 & resp0 & se0 & Hget0 & Hst0 & Hh0 & Hcl).
  apply truthy_true in Hcl.
  pose proof (download_exit_path env url target md5sum w) as Hpath.
  destruct (download env url target md5sum w) as [[r w'] t]. cbn [fst snd] in *.
  destruct Hpath as [Hb|e Hb Hreq|resp se cl' errno Hb Hget Hst Hh Ho
                    |resp se cl' rl s' tl Hb Hget Hst Hh Ho Hloop].
  - congruence.
  - destruct Hreq as [(le & Hget & _)|[(resp & se & Hget & Hst & _)
                                      |(resp & se & Hget & _ & Hh & _)]];
      congruence.
  - assert (resp = resp0) as -> by congruence.
    assert (cl' = cl) as -> by congruence.
    split.
    + trace_filter. rewrite Hcl. destruct (session_cached w); reflexivity.
    + unfold stop_events. cbn [default from_option id]. rewrite Hcl.
      last_of_trace. reflexivity.
  - assert (resp = resp0) as -> by congruence.
    assert (cl' = cl) as -> by congruence.
    destruct (stream_loop_frame _ _ _ _ _ _ _ _ _ _ _ _ Hloop)
      as (_ & _ & _ & _ & _ & Hev & _).
    split.
    + rewrite filter_streamed.
      * trace_filter. rewrite Hcl. destruct (session_cached w); reflexivity.
      * apply filter_loop_events; [|exact Hev]. by intros [].
    + unfold stop_events. cbn [default from_option id]. rewrite Hcl.
      last_of_trace. reflexivity.
Qed.

(** C7 as the code has it.  A failure of the GET, whether raised by
    [session.get], by [raise_for_status] (for a 4xx or 5xx status) or by
    the body iterator, reaches the caller as a [CondaHTTPError] when it is
    one of the classes line 127 names ([ConnectionError], [HTTPError],
    [SSLError]); the error holds the url, the status code, reason and
    elapsed time of the response attached to the failure ([None] when
    there is none), the response and the cause.  A failure that no clause
    names (a socket error such as errno 104, a broken chunked body, a read
    timeout) reaches the caller as it is.  Either way the request was
    issued once. *)
Theorem transport_failure_becomes_http_error url target md5sum w cause :
  blocked env target w = false ->
  get_failure env url target cause ->
  (is_http_failure cause = true ->
   (download env url target md5sum w).1.1 =
     Raise (CondaHTTPError help_message url
              (status_code <$> response_of cause) (reason <$> response_of cause)
              (elapsed <$> response_of cause) (response_of cause) cause)) /\
  (named_by_clause cause = false ->
   (download env url target md5sum w).1.1 = Raise (LibError cause)) /\
  get_calls (download env url target md5sum w).2 = 1%nat.
Proof.
  intros Hb Hfail.
  assert (Hout : (download env url target md5sum w).1.1
                 = Raise (translated url (LibError cause))).
  { rewrite download_run, Hb, fetch_run. cbn [world content_length].
    destruct Hfail as [e Hget|resp se Hget Hst|resp e cl Hget Hst Hh Ho Hw].
    - by rewrite Hget.
    - by rewrite Hget, Hst.
    - rewrite Hget, Hst, Hh, Ho.
      by destruct (stream_loop_interrupted env target cl (body resp) e 0 [] 0%Z
                     (mkFrame (opened target w) (Some cl)) Hw) as (s' & t & ->). }
  rewrite Hout. split; [|split].
  - intros He. by rewrite translated_http_failure.
  - intros He. by destruct cause.
  - by rewrite one_get_per_call, Hb.
Qed.

(** C9.  A [Content-Length] header whose value is ["0"] and a missing
    header both make line 65 yield 0; then the call logs no start, update
    or stop event on any path, never raises the length-mismatch error, and
    a body streamed to its end is judged by the checksum alone. *)
Theorem zero_content_length_is_like_none url target md5sum w resp se :
  http_get env url = GetReturns resp se ->
  headers_get "Content-Length" (headers resp) = None \/
  headers_get "Content-Length" (headers resp) = Some "0" ->
  declared_length resp = mret 0%Z /\
  List.filter is_fetch (download env url target md5sum w).2 = [] /\
  (forall kw, (download env url target md5sum w).1.1
              <> Raise (CondaError length_mismatch_message kw)) /\
  (stream_ends env url target w resp 0 ->
   (download env url target md5sum w).1.1
   = verified url target md5sum (map fst (body resp))).
Proof.
  intros Hget0 Hhdr.
  assert (Hh0 : header_length resp = Some 0%Z).
  { unfold header_length. destruct Hhdr as [-> | ->]; reflexivity. }
  split; [unfold declared_length; destruct Hhdr as [-> | ->]; reflexivity|].
  split; [|split].
  - pose proof (download_exit_path env url target md5sum w) as Hpath.
    destruct (download env url target md5sum w) as [[r w'] t]. cbn [fst snd] in *.
    destruct Hpath as [Hb|e Hb Hreq|resp' se' cl' errno Hb Hget Hst Hh Ho
                      |resp' se' cl' rl s' tl Hb Hget Hst Hh Ho Hloop].
    + reflexivity.
    + trace_filter. destruct (session_cached w); reflexivity.
    + assert (resp' = resp) as -> by congruence.
      assert (cl' = 0%Z) as -> by congruence.
      trace_filter. destruct (session_cached w); reflexivity.
    + assert (resp' = resp) as -> by congruence.
      assert (cl' = 0%Z) as -> by congruence.
      destruct (stream_loop_frame _ _ _ _ _ _ _ _ _ _ _ _ Hloop)
        as (_ & _ & _ & _ & _ & Hev & Hprog).
      rewrite filter_streamed.
      * trace_filter. destruct (session_cached w); reflexivity.
      * apply filter_fetch_loop; [exact Hev|]. by apply Hprog.
  - intros kw.
    pose proof (download_exit_path env url target md5sum w) as Hpath.
    destruct (download env url target md5sum w) as [[r w'] t]. cbn [fst snd] in *.
    destruct Hpath as [Hb|e Hb Hreq|resp' se' cl' errno Hb Hget Hst Hh Ho
                      |resp' se' cl' rl s' tl Hb Hget Hst Hh Ho Hloop].
    + discriminate.
    + destruct (request_fails_lib _ _ _ Hreq) as (le & ->).
      intros [= H]. by apply (proj1 (translated_lib_error url le)) in H.
    + discriminate.
    + assert (resp' = resp) as -> by congruence.
      assert (cl' = 0%Z) as -> by congruence.
      pose proof (stream_loop_result _ _ _ _ _ _ _ _ _ _ _ _ Hloop) as Hres.
      destruct rl as [[db sb]|e]; cbn.
      * unfold verified. destruct (_ && _); discriminate.
      * destruct Hres as [(j & errno & _ & _ & ->)|(le & _ & ->)].
        -- cbn. intros H. unfold write_error in H. apply messages_differ. congruence.
        -- intros [= H]. by apply (proj1 (translated_lib_error url le)) in H.
  - intros Hends.
    destruct (download_stream_ends env url target md5sum w resp 0 Hends)
      as (s' & t & _ & ->).
    reflexivity.
Qed.

(** C10.  When the call ends with the length-mismatch error or with the
    checksum-mismatch error, the destination holds every chunk of the
    body, as written, and the rest of the disk is as before: neither path
    removes or truncates what was streamed. *)
Theorem validation_failure_keeps_file url target md5sum w resp se :
  http_get env url = GetReturns resp se ->
  (exists kw, (download env url target md5sum w).1.1
              = Raise (CondaError length_mismatch_message kw)) \/
  (exists u p x a, (download env url target md5sum w).1.1
                   = Raise (MD5MismatchError u p x a)) ->
  fs (download env url target md5sum w).1.2 !! target
    = Some (concat (map fst (body resp))) /\
  writes_of target (download env url target md5sum w).2 = map fst (body resp) /\
  (forall p, p <> target ->
             fs (download env url target md5sum w).1.2 !! p = fs w !! p).
Proof.
  intros Hget0 Hfail.
  pose proof (download_exit_path env url target md5sum w) as Hpath.
  destruct (download env url target md5sum w) as [[r w'] t]. cbn [fst snd] in *.
  destruct Hpath as [Hb|e Hb Hreq|resp' se' cl errno Hb Hget Hst Hh Ho
                    |resp' se' cl rl s' tl Hb Hget Hst Hh Ho Hloop].
  - destruct Hfail as [(kw & H)|(u & p & x & a & H)]; discriminate H.
  - destruct (request_fails_lib _ _ _ Hreq) as (le & ->).
    destruct (translated_lib_error url le) as (H1 & H2).
    destruct Hfail as [(kw & [= H])|(u & p & x & a & [= H])];
      [by apply H1 in H | by apply H2 in H].
  - destruct Hfail as [(kw & H)|(u & p & x & a & H)]; discriminate H.
  - assert (resp' = resp) as -> by congruence.
    pose proof (stream_loop_result _ _ _ _ _ _ _ _ _ _ _ _ Hloop) as Hres.
    destruct (stream_loop_frame _ _ _ _ _ _ _ _ _ _ _ _ Hloop)
      as (_ & _ & Hother & Hfile & Hwu & _ & _).
    destruct rl as [[db sb]|e].
    + destruct Hres as (_ & _ & _ & Hup & _ & _).
      split; [|split].
      * rewrite (Hfile [] (opened_lookup target w)), Hup. reflexivity.
      * unfold writes_of. rewrite omap_streamed.
        -- fold (writes_of target tl). by rewrite Hwu.
        -- intros [] Hev; try reflexivity; discriminate Hev.
      * intros p Hp. rewrite (Hother p Hp). cbn. by rewrite lookup_insert_ne.
    + exfalso. cbn in Hfail.
      destruct Hres as [(j & errno & _ & _ & ->)|(le & _ & ->)].
      * cbn in Hfail.
        destruct Hfail as [(kw & H)|(u & p & x & a & H)]; [|discriminate H].
        unfold write_error in H. apply messages_differ. congruence.
      * destruct (translated_lib_error url le) as (H1 & H2).
        destruct Hfail as [(kw & [= H])|(u & p & x & a & [= H])];
          [by apply H1 in H | by apply H2 in H].
Qed.


End Claims.

(** ** Concurrent callers *)

(** A statement of a thread either leaves its being in the session and the
    lock as they are, or takes the free lock and enters, or leaves and
    frees the lock. *)
Lemma thread_step_kinds i g p g' p' :
  Threads.thread_step i (g, p) (g', p') ->
  (Threads.in_session p' = Threads.in_session p /\
   Threads.mutex g' = Threads.mutex g) \/
  (Threads.mutex g = false /\ Threads.in_session p = false /\
   Threads.in_session p' = true /\ Threads.mutex g' = true) \/
  (Threads.in_session p = true /\ Threads.in_session p' = false /\
   Threads.mutex g' = false).
Proof.
  inversion 1; subst; cbn; naive_solver.
Qed.





(** ** The claims on concrete calls *)

Import Scenario.

Lemma stream_ends_on_empty_disk resp cl :
  status_fails resp = false ->
  header_length resp = Some cl ->
  stream_ends (serve (GetReturns resp None)) url target empty_disk resp cl.
Proof. intros Hst Hh. repeat split; auto. Qed.

(** A body that arrives encoded: four bytes on the wire, six after
    decoding.  Progress and the length check follow the wire count. *)
Example encoded_body_counts_wire_bytes :
  let run := download (serve (GetReturns resp_encoded None)) url target None empty_disk in
  run.1.1 = Return tt /\
  progress_of run.2 = [4%Z] /\
  length <$> (fs run.1.2 !! target) = Some 6%nat.
Proof. vm_compute. repeat split. Qed.

Example short_body_is_a_length_mismatch :
  (download (serve (GetReturns resp_short None)) url target None empty_disk).1.1 =
  Raise (length_error url target 1024 900).
Proof. vm_compute. reflexivity. Qed.

Example not_found_is_an_http_error :
  (download (serve (GetReturns resp_not_found None)) url target None empty_disk).2 =
  [SessionInit; MutexAcquire; SessionGet url; MutexRelease].
Proof. vm_compute. reflexivity. Qed.

Lemma clobber_error_before_any_request_witness :
  download (serve (GetReturns resp_ok None)) url target None taken_disk
    = (Raise (BasicClobberError target url), taken_disk, []) /\
  get_calls (download (serve (GetReturns resp_ok None)) url target None taken_disk).2 = 0%nat.
Proof.
  apply (clobber_error_before_any_request
           (serve (GetReturns resp_ok None)) url target None taken_disk).
  - exists [x50; x4b]%byte. vm_compute. reflexivity.
  - reflexivity.
Defined.

Lemma length_mismatch_raises_witness :
  (download (serve (GetReturns resp_short None)) url target None empty_disk).1.1 =
  Raise (CondaError length_mismatch_message
           [("url", VStr url); ("target_path", VStr target);
            ("content_length", VInt 1024);
            ("downloaded_bytes", VInt (last_tell 0 (body resp_short)))]).
Proof.
  refine (proj2 (length_mismatch_raises
                   (serve (GetReturns resp_short None)) url target None empty_disk
                   resp_short None 1024 _ _ _ _) _).
  - reflexivity.
  - vm_compute. reflexivity.
  - discriminate.
  - vm_compute. discriminate.
  - apply stream_ends_on_empty_disk; vm_compute; reflexivity.
Defined.

Lemma checksum_mismatch_raises_witness :
  (download (serve (GetReturns resp_ok None)) url target (Some md5_of_nothing) empty_disk).1.1 =
  Raise (MD5MismatchError url target md5_of_nothing
           (MD5.hexdigest (concat (map fst (body resp_ok))))).
Proof.
  apply (checksum_mismatch_raises
           (serve (GetReturns resp_ok None)) url target md5_of_nothing empty_disk resp_ok 4).
  - apply stream_ends_on_empty_disk; vm_compute; reflexivity.
  - right. vm_compute. reflexivity.
  - discriminate.
  - intros H. vm_compute in H. discriminate H.
Defined.

Lemma written_chunks_are_hashed_chunks_witness :
  exists resp,
    http_get (serve (GetReturns resp_ok None)) url = GetReturns resp None /\
    writes_of target
      (download (serve (GetReturns resp_ok None)) url target (Some md5_abcd) empty_disk).2
      = map fst (body resp) /\
    updates_of
      (download (serve (GetReturns resp_ok None)) url target (Some md5_abcd) empty_disk).2
      = map fst (body resp).
Proof.
  destruct (written_chunks_are_hashed_chunks
              (serve (GetReturns resp_ok None)) url target (Some md5_abcd) empty_disk)
    as (resp & Hget & Hw & Hu & _).
  - vm_compute. reflexivity.
  - exists resp. auto.
Defined.

Lemma progress_counts_wire_bytes_witness :
  progress_of (download (serve (GetReturns resp_encoded None)) url target None empty_disk).2
    = List.filter (in_range 4) (map snd (body resp_encoded)).
Proof.
  refine (proj1 (progress_counts_wire_bytes
                   (serve (GetReturns resp_encoded None)) url target None empty_disk
                   resp_encoded 4 _)).
  apply stream_ends_on_empty_disk; vm_compute; reflexivity.
Defined.

Lemma transfer_stop_on_every_exit_witness :
  last (download (serve (GetReturns resp_short (Some (ConnectionError None))))
                 url target None empty_disk).2 = Some FetchStop.
Proof.
  refine (proj2 (transfer_stop_on_every_exit
                   (serve (GetReturns resp_short (Some (ConnectionError None))))
                   url target None empty_disk 1024 _)).
  split; [vm_compute; reflexivity|].
  exists resp_short, (Some (ConnectionError None)).
  repeat split; try (vm_compute; reflexivity). discriminate.
Defined.

Lemma transport_failure_becomes_http_error_witness :
  (download (serve (GetReturns resp_not_found None)) url target None empty_disk).1.1 =
    Raise (CondaHTTPError help_message url (Some 404%Z) (Some "Not Found") (Some 800%Z)
             (Some resp_not_found) (HTTPError (Some resp_not_found))) /\
  get_calls (download (serve (GetReturns resp_not_found None)) url target None empty_disk).2
    = 1%nat.
Proof.
  destruct (transport_failure_becomes_http_error
              (serve (GetReturns resp_not_found None)) url target None empty_disk
              (HTTPError (Some resp_not_found)))
    as (Hnamed & _ & Hgets).
  - vm_compute. reflexivity.
  - apply (error_status _ _ _ resp_not_found None); vm_compute; reflexivity.
  - split; [exact (Hnamed eq_refl)|exact Hgets].
Defined.

(** C7 as the spec words it fails twice over.  A 304 is not a 2xx
    status, yet [raise_for_status] lets it through and the call returns
    normally; and a connection reset while the body is read, which
    surfaces as a socket error with errno 104 (the case lines 104-106
    name), is raised again as it is, not as a [CondaHTTPError]. *)
Lemma not_every_transport_failure_is_translated :
  ~ (forall env url target md5sum w resp se,
       blocked env target w = false ->
       http_get env url = GetReturns resp se ->
       ((status_code resp <? 200)%Z || (300 <=? status_code resp)%Z) = true ->
       exists cause,
         (download env url target md5sum w).1.1 =
         Raise (CondaHTTPError help_message url
                  (Some (status_code resp)) (Some (reason resp)) (Some (elapsed resp))
                  (Some resp) cause)) /\
  ~ (forall env url target md5sum w resp cl,
       stream_starts env url target w resp (Some (IOError 104)) cl ->
       (forall k, (k < length (body resp))%nat -> write_fault env k = None) ->
       exists message u status reason_ elapsed_time response cause,
         (download env url target md5sum w).1.1 =
         Raise (CondaHTTPError message u status reason_ elapsed_time response cause)).
Proof.
  split; intros Hclaim.
  - destruct (Hclaim (serve (GetReturns resp_not_modified None)) url target None empty_disk
                     resp_not_modified None) as (cause & H).
    + vm_compute. reflexivity.
    + reflexivity.
    + vm_compute. reflexivity.
    + vm_compute in H. discriminate H.
  - destruct (Hclaim (serve (GetReturns resp_ok (Some (IOError 104)))) url target None
                     empty_disk resp_ok 4%Z)
      as (message & u & status & reason_ & elapsed_time & response & cause & H).
    + repeat split; vm_compute; reflexivity.
    + reflexivity.
    + vm_compute in H. discriminate H.
Qed.

Lemma one_inside_reachable : Threads.reachable 2 one_inside.
Proof.
  unfold Threads.reachable, Threads.initial, one_inside.
  eapply rtc_l; [eapply (Threads.step_thread 0); [reflexivity|apply Threads.step_read]|cbn].
  eapply rtc_l; [eapply (Threads.step_thread 0); [reflexivity|apply Threads.step_install]|cbn].
  eapply rtc_l;
    [eapply (Threads.step_thread 0); [reflexivity|by apply Threads.step_acquire]|cbn].
  eapply rtc_l; [eapply (Threads.step_thread 1); [reflexivity|apply Threads.step_read]|cbn].
  eapply rtc_l; [eapply (Threads.step_thread 1); [reflexivity|apply Threads.step_reuse]|cbn].
  apply rtc_refl.
Defined.


Lemma zero_content_length_is_like_none_witness :
  List.filter is_fetch
    (download (serve (GetReturns resp_zero None)) url target None empty_disk).2 = [] /\
  (download (serve (GetReturns resp_zero None)) url target None empty_disk).1.1 = Return tt.
Proof.
  destruct (zero_content_length_is_like_none
              (serve (GetReturns resp_zero None)) url target None empty_disk resp_zero None)
    as (_ & Hno & _ & Hsum).
  - reflexivity.
  - right. reflexivity.
  - split; [exact Hno|]. rewrite Hsum; [reflexivity|].
    apply stream_ends_on_empty_disk; vm_compute; reflexivity.
Defined.

Lemma validation_failure_keeps_file_witness :
  fs (download (serve (GetReturns resp_short None)) url target None empty_disk).1.2 !! target
    = Some (concat (map fst (body resp_short))).
Proof.
  refine (proj1 (validation_failure_keeps_file
                   (serve (GetReturns resp_short None)) url target None empty_disk
                   resp_short None _ _)).
  - reflexivity.
  - left. eexists. vm_compute. reflexivity.
Defined.

(** * Further properties of the routine *)

Ltac exit_paths env url target md5sum w :=
  let Hpath := fresh "Hpath" in
  pose proof (download_exit_path env url target md5sum w) as Hpath;
  destruct (download env url target md5sum w) as [[r w'] t]; cbn [fst snd] in *;
  destruct Hpath as [Hb|e Hb Hreq|resp' se' cl' errno' Hb Hget Hst Hh Ho
                    |resp' se' cl' rl s' tl Hb Hget Hst Hh Ho Hloop].

Section LoopFaults.

Variable env : Env.

(** The first failing write ends the loop with the write error, after the
    chunks before it have been written, hashed and reported. *)
Lemma stream_loop_write_fault target cl chunks se errno :
  forall k k0 db sb s,
    (k < length chunks)%nat ->
    write_fault env (k0 + k) = Some errno ->
    (forall j, (j < k)%nat -> write_fault env (k0 + j) = None) ->
    exists s' t,
      stream_loop env target cl chunks se k0 db sb s
        = (Raise (write_error target errno), s', t) /\
      updates_of t = map fst (take k chunks) /\
      progress_of t = List.filter (in_range cl) (map snd (take k chunks)).
Proof.
  induction chunks as [|[c tl] rest IH]; intros k k0 db sb s Hk Hf Hok.
  - cbn in Hk. lia.
  - rewrite stream_loop_cons. destruct k as [|k].
    + rewrite Nat.add_0_r in Hf. rewrite Hf. by exists s, [].
    + pose proof (Hok 0%nat ltac:(lia)) as H0. rewrite Nat.add_0_r in H0. rewrite H0.
      destruct (IH k (S k0) (db ++ [c]) tl (write_chunk target c s))
        as (s' & t & Heq & Hup & Hprog).
      * cbn in Hk. lia.
      * by replace (S k0 + k)%nat with (k0 + S k)%nat by lia.
      * intros j Hj. replace (S k0 + j)%nat with (k0 + S j)%nat by lia. apply Hok. lia.
      * rewrite Heq. eexists _, _. split; [reflexivity|].
        cbn [take map fst snd List.filter].
        destruct (in_range cl tl); cbn; split; f_equal; assumption.
Qed.

(** Whatever way the loop ends, it has logged only cursor values that
    pass the test of line 87. *)
Lemma stream_loop_progress_in_range target cl chunks se :
  forall k db sb s r s' t,
    stream_loop env target cl chunks se k db sb s = (r, s', t) ->
    Forall (fun n => in_range cl n = true) (progress_of t).
Proof.
  induction chunks as [|[c tl] rest IH]; intros k db sb s r s' t Hrun.
  - rewrite stream_loop_nil in Hrun.
    assert (t = []) as -> by (destruct se; by inversion Hrun). constructor.
  - rewrite stream_loop_cons in Hrun.
    destruct (write_fault env k); [inversion Hrun; constructor|].
    destruct (stream_loop env target cl rest se (S k) (db ++ [c]) tl (write_chunk target c s))
      as [[r1 s1] t1] eqn:Hrest.
    inversion Hrun; subst; clear Hrun.
    specialize (IH _ _ _ _ _ _ _ Hrest).
    destruct (in_range cl tl) eqn:Hr; cbn; [constructor|]; auto.
Qed.

End LoopFaults.

Lemma in_range_bounds cl n : in_range cl n = true <-> (cl <> 0 /\ 0 <= n <= cl)%Z.
Proof.
  unfold in_range. rewrite !andb_true_iff, truthy_true, Z.leb_le, Z.leb_le. tauto.
Qed.

Lemma last_filter_keeps {A} (f : A -> bool) (l : list A) (x : A) :
  last l = Some x -> f x = true -> last (List.filter f l) = Some x.
Proof.
  intros Hl Hf. apply last_Some in Hl as [l' ->].
  rewrite List.filter_app. cbn. rewrite Hf. apply last_snoc.
Qed.

Lemma length_test_false cl sb :
  (truthy cl && negb (sb =? cl)%Z) = false <-> cl = 0%Z \/ sb = cl.
Proof.
  unfold truthy. destruct (Z.eqb_spec cl 0), (Z.eqb_spec sb cl); cbn;
    split; auto; try discriminate; intros [?|?]; contradiction.
Qed.

Section MoreFacts.

Variable env : Env.

(** A call that got as far as the loop: what it ends with, the world and
    the log, in terms of how the loop ended. *)
Lemma download_stream_starts url target md5sum w resp se cl :
  stream_starts env url target w resp se cl ->
  forall r s' t,
    stream_loop env target cl (body resp) se 0 [] 0%Z
                (mkFrame (opened target w) (Some cl)) = (r, s', t) ->
    download env url target md5sum w =
    (after_stream url target md5sum cl r, world s',
     pre_events env url target w ++ enter_events w url ++ start_events target cl ++
     FileOpen target :: t ++ [FileClose target; MutexRelease] ++ stop_events (Some cl)).
Proof.
  intros (Hb & Hget & Hst & Hh & Ho) r s' t Hloop.
  rewrite download_run, Hb, fetch_run. cbn [world content_length].
  rewrite Hget, Hst, Hh, Ho, Hloop.
  destruct (stream_loop_frame _ _ _ _ _ _ _ _ _ _ _ _ Hloop) as (Hcl & _).
  cbn in Hcl. rewrite Hcl. f_equal; [f_equal|].
  - unfold after_stream. destruct r as [[db sb]|e]; [|reflexivity].
    by destruct (truthy cl && negb (sb =? cl)%Z).
  - rewrite <- !app_assoc. cbn. by rewrite <- !app_assoc.
Qed.

(** A normal return means the body was streamed to its end and passed
    both checks. *)
Lemma normal_return_inv url target md5sum w :
  (download env url target md5sum w).1.1 = Return tt ->
  exists resp cl,
    stream_ends env url target w resp cl /\
    (cl = 0%Z \/ last_tell 0 (body resp) = cl) /\
    verified url target md5sum (map fst (body resp)) = Return tt.
Proof.
  exit_paths env url target md5sum w; intros Hr; try discriminate Hr.
  pose proof (stream_loop_result _ _ _ _ _ _ _ _ _ _ _ _ Hloop) as Hres.
  destruct rl as [[db sb]|e]; [|discriminate Hr].
  destruct Hres as (-> & Hnf & Hdb & _ & Hsb & _). cbn in Hdb. subst db sb.
  unfold after_stream in Hr.
  destruct (truthy cl' && negb (last_tell 0 (body resp') =? cl')%Z) eqn:Htest;
    [discriminate Hr|].
  exists resp', cl'. split; [|split; [by apply length_test_false|exact Hr]].
  repeat split; auto.
Qed.

(** The progress events of a body streamed to its end. *)
Lemma progress_of_stream_ends url target md5sum w resp cl :
  stream_ends env url target w resp cl ->
  progress_of (download env url target md5sum w).2
    = List.filter (in_range cl) (map snd (body resp)).
Proof.
  intros Hends.
  destruct (download_stream_ends env url target md5sum w resp cl Hends)
    as (s' & t & Hloop & ->).
  cbn [fst snd].
  pose proof (stream_loop_result _ _ _ _ _ _ _ _ _ _ _ _ Hloop) as Hres.
  cbn in Hres. destruct Hres as (_ & _ & _ & _ & _ & Hprog).
  rewrite <- Hprog. rewrite <- !app_assoc. cbn [app].
  unfold progress_of. rewrite <- !app_assoc. apply omap_streamed.
  intros [] Hev; try reflexivity; discriminate Hev.
Qed.

End MoreFacts.

Section Extras.

Variable env : Env.

(** X1.  A failing write stops the transfer at once: the call does not
    return normally, and only the chunks before the failing one were
    written, fed to the digest and reported as progress. *)
Theorem write_failure_stops_the_transfer url target md5sum w resp se cl k errno :
  stream_starts env url target w resp se cl ->
  (k < length (body resp))%nat ->
  write_fault env k = Some errno ->
  (forall j, (j < k)%nat -> write_fault env j = None) ->
  (download env url target md5sum w).1.1 <> Return tt /\
  writes_of target (download env url target md5sum w).2 = map fst (take k (body resp)) /\
  updates_of (download env url target md5sum w).2 = map fst (take k (body resp)) /\
  progress_of (download env url target md5sum w).2
    = List.filter (in_range cl) (map snd (take k (body resp))).
Proof.
  intros Hstart Hk Hf Hok.
  destruct (stream_loop_write_fault env target cl (body resp) se errno k 0 [] 0%Z
              (mkFrame (opened target w) (Some cl)) Hk Hf Hok)
    as (s' & t & Hloop & Hup & Hprog).
  rewrite (download_stream_starts env url target md5sum w resp se cl Hstart _ _ _ Hloop).
  cbn [fst snd].
  destruct (stream_loop_frame _ _ _ _ _ _ _ _ _ _ _ _ Hloop)
    as (_ & _ & _ & _ & Hwu & _ & _).
  split; [discriminate|]. split; [|split].
  - unfold writes_of. rewrite omap_streamed.
    + fold (writes_of target t). by rewrite Hwu.
    + intros [] Hev; try reflexivity; discriminate Hev.
  - unfold updates_of. rewrite omap_streamed; [exact Hup|].
    intros [] Hev; try reflexivity; discriminate Hev.
  - unfold progress_of. rewrite omap_streamed; [exact Hprog|].
    intros [] Hev; try reflexivity; discriminate Hev.
Qed.

(** X2.  When the destination cannot be opened, the [IOError] of [open]
    reaches the caller as it is; the disk is unchanged, the lock was taken
    and given back, and a start event that was logged is followed by its
    stop event. *)
Theorem open_failure_propagates url target md5sum w resp se cl errno :
  blocked env target w = false ->
  http_get env url = GetReturns resp se ->
  status_fails resp = false ->
  header_length resp = Some cl ->
  open_fault env target = Some errno ->
  (download env url target md5sum w).1.1 = Raise (LibError (IOError errno)) /\
  fs (download env url target md5sum w).1.2 = fs w /\
  List.filter is_lock (download env url target md5sum w).2 = [MutexAcquire; MutexRelease] /\
  List.filter is_start_stop (download env url target md5sum w).2
    = start_events target cl ++ stop_events (Some cl).
Proof.
  intros Hb Hget Hst Hh Ho.
  rewrite download_run, Hb, fetch_run. cbn [world content_length].
  rewrite Hget, Hst, Hh, Ho. cbn [fst snd world content_length].
  destruct (session_cached w) eqn:Hsc, (truthy cl) eqn:Hcl;
    repeat split; trace_filter; rewrite ?Hsc, ?Hcl; reflexivity.
Qed.

(** X3.  A [Content-Length] value that [int] rejects makes the call raise
    the [ValueError] of [int] itself: nothing is opened or written, and no
    progress event of any kind is logged. *)
Theorem malformed_length_header_raises url target md5sum w resp se v :
  blocked env target w = false ->
  http_get env url = GetReturns resp se ->
  status_fails resp = false ->
  headers_get "Content-Length" (headers resp) = Some v ->
  int_of_str v = None ->
  (download env url target md5sum w).1.1 =
    Raise (LibError (ValueError (int_error_message v))) /\
  fs (download env url target md5sum w).1.2 = fs w /\
  List.filter is_open (download env url target md5sum w).2 = [] /\
  List.filter is_fetch (download env url target md5sum w).2 = [].
Proof.
  intros Hb Hget Hst Hv Hint.
  assert (Hh : header_length resp = None) by (unfold header_length; by rewrite Hv).
  rewrite download_run, Hb, fetch_run. cbn [world content_length].
  rewrite Hget, Hst, Hh. cbn [fst snd world content_length].
  unfold bad_int. rewrite Hv.
  repeat split; trace_filter; destruct (session_cached w); reflexivity.
Qed.

(** X4.  An [InvalidSchema] raised by the GET becomes a
    [CondaDependencyError] exactly when its message mentions SOCKS;
    otherwise the caller gets the [InvalidSchema] itself. *)
Theorem invalid_schema_is_socks_or_reraised url target md5sum w msg :
  blocked env target w = false ->
  http_get env url = GetRaises (InvalidSchema msg) ->
  (download env url target md5sum w).1.1 =
    if contains "SOCKS" msg
    then Raise (CondaDependencyError socks_message)
    else Raise (LibError (InvalidSchema msg)).
Proof.
  intros Hb Hget.
  rewrite download_run, Hb, fetch_run. cbn [world content_length].
  rewrite Hget. cbn. by destruct (contains "SOCKS" msg).
Qed.

(** X5.  An exception of the GET that no [except] clause names reaches the
    caller unchanged, after the lock has been given back. *)
Theorem unnamed_exception_passes_through url target md5sum w e :
  blocked env target w = false ->
  http_get env url = GetRaises e ->
  named_by_clause e = false ->
  (download env url target md5sum w).1.1 = Raise (LibError e) /\
  List.filter is_lock (download env url target md5sum w).2 = [MutexAcquire; MutexRelease].
Proof.
  intros Hb Hget He.
  rewrite download_run, Hb, fetch_run. cbn [world content_length].
  rewrite Hget. cbn [fst snd]. split.
  - by destruct e.
  - trace_filter. destruct (session_cached w); reflexivity.
Qed.

(** X6.  The call returns normally only if the body was streamed to its
    end, the byte count matched the declared length if there was one, and
    the checksum matched if one was given. *)
Theorem normal_return_requires url target md5sum w :
  (download env url target md5sum w).1.1 = Return tt ->
  exists resp cl,
    stream_ends env url target w resp cl /\
    (cl = 0%Z \/ last_tell 0 (body resp) = cl) /\
    verified url target md5sum (map fst (body resp)) = Return tt.
Proof. apply normal_return_inv. Qed.

(** X7.  A call either never opens the destination and leaves the whole
    disk as it was, or opens it once; then every other path is as it was,
    and unless the call ends with an I/O error the destination holds
    exactly what this call wrote, whatever it held before. *)
Theorem only_the_destination_is_written url target md5sum w :
  (List.filter is_open (download env url target md5sum w).2 = [] /\
   fs (download env url target md5sum w).1.2 = fs w) \/
  (List.filter is_open (download env url target md5sum w).2 = [FileOpen target] /\
   (forall p, p <> target -> fs (download env url target md5sum w).1.2 !! p = fs w !! p) /\
   (is_io_outcome (download env url target md5sum w).1.1 = false ->
    fs (download env url target md5sum w).1.2 !! target
      = Some (concat (writes_of target (download env url target md5sum w).2)))).
Proof.
  exit_paths env url target md5sum w.
  - left. by split.
  - left. split; [|reflexivity]. trace_filter. destruct (session_cached w); reflexivity.
  - left. split; [|reflexivity].
    trace_filter. destruct (session_cached w), (truthy cl'); reflexivity.
  - right.
    destruct (stream_loop_frame _ _ _ _ _ _ _ _ _ _ _ _ Hloop)
      as (_ & _ & Hother & Hfile & Hwu & Hev & _).
    split; [|split].
    + rewrite filter_streamed.
      * trace_filter. destruct (session_cached w), (truthy cl'); reflexivity.
      * apply filter_loop_events; [|exact Hev]. by intros [].
    + intros p Hp. rewrite (Hother p Hp). cbn. by rewrite lookup_insert_ne.
    + intros _. rewrite (Hfile [] (opened_lookup target w)). cbn [app]. do 2 f_equal.
      unfold writes_of. rewrite omap_streamed; [by fold (writes_of target tl)|].
      intros [] Hev'; try reflexivity; discriminate Hev'.
Qed.

End Extras.

Lemma hexdigest_length data : String.length (MD5.hexdigest data) = 32%nat.
Proof.
  unfold MD5.hexdigest.
  destruct (MD5.blocks _ MD5.init _) as [[[a b] c] d].
  reflexivity.
Qed.

Lemma basename_has_no_slash p : contains "/" (basename p) = false.
Proof.
  induction p as [|c p IH]; [reflexivity|].
  change (basename (String c p))
    with (if contains "/" (String c p) then basename p else String c p).
  destruct (contains "/" (String c p)) eqn:Hc; [exact IH|exact Hc].
Qed.

Lemma contains_slash_cons c s :
  contains "/" (String c s)
  = ((if Ascii.ascii_dec "/" c then true else false) || contains "/" s)%bool.
Proof.
  change (contains "/" (String c s))
    with (String.prefix "/" (String c s) || contains "/" s)%bool.
  f_equal. cbn [String.prefix]. by destruct (Ascii.ascii_dec "/" c), s.
Qed.

Lemma str_take_has_no_slash n : forall s,
  contains "/" s = false -> contains "/" (str_take n s) = false.
Proof.
  induction n as [|n IH]; intros [|c s] Hs; try reflexivity.
  change (str_take (S n) (String c s)) with (String c (str_take n s)).
  rewrite contains_slash_cons in Hs |- *.
  apply orb_false_iff in Hs as [Hc Hs].
  apply orb_false_iff. split; [exact Hc|by apply IH].
Qed.

Lemma str_take_length n : forall s, (String.length (str_take n s) <= n)%nat.
Proof.
  induction n as [|n IH]; intros s; [exact (le_n 0)|].
  destruct s as [|c s]; [exact (Nat.le_0_l (S n))|].
  change (str_take (S n) (String c s)) with (String c (str_take n s)).
  specialize (IH s). cbn [String.length]. lia.
Qed.

Section Extras2.

Variable env : Env.

(** Every call logs either no start or stop event, or one start event
    labelled with the cut file name, followed by one stop event. *)
Lemma start_stop_log url target md5sum w :
  List.filter is_start_stop (download env url target md5sum w).2 = [] \/
  exists cl,
    List.filter is_start_stop (download env url target md5sum w).2
    = [FetchStart (str_take 14 (basename target)) cl; FetchStop].
Proof.
  exit_paths env url target md5sum w.
  - by left.
  - left. trace_filter. destruct (session_cached w); reflexivity.
  - destruct (truthy cl') eqn:Hcl; [right; exists cl'|left];
      trace_filter; rewrite Hcl; destruct (session_cached w); reflexivity.
  - destruct (stream_loop_frame _ _ _ _ _ _ _ _ _ _ _ _ Hloop)
      as (_ & _ & _ & _ & _ & Hev & _).
    assert (Hnone : List.filter is_start_stop tl = [])
      by (apply filter_loop_events; [|exact Hev]; by intros []).
    destruct (truthy cl') eqn:Hcl; [right; exists cl'|left];
      rewrite (filter_streamed _ _ _ _ _ _ _ Hnone);
      trace_filter; rewrite Hcl; destruct (session_cached w); reflexivity.
Qed.

(** What every call does to the shared session instance. *)
Lemma session_init_log url target md5sum w :
  session_cached (download env url target md5sum w).1.2
    = (if blocked env target w then session_cached w else true) /\
  List.filter is_init (download env url target md5sum w).2
    = if blocked env target w then []
      else if session_cached w then [] else [SessionInit].
Proof.
  exit_paths env url target md5sum w; rewrite Hb.
  - by split.
  - split; [reflexivity|]. trace_filter. destruct (session_cached w); reflexivity.
  - split; [reflexivity|].
    trace_filter. destruct (session_cached w), (truthy cl'); reflexivity.
  - destruct (stream_loop_frame _ _ _ _ _ _ _ _ _ _ _ _ Hloop)
      as (_ & Hsc & _ & _ & _ & Hev & _).
    split; [exact Hsc|].
    rewrite filter_streamed.
    + trace_filter. destruct (session_cached w), (truthy cl'); reflexivity.
    + apply filter_loop_events; [|exact Hev]. by intros [].
Qed.

(** X8.  In a call that passes the precondition check, the GET and every
    operation on the destination file and on the digest happen between
    the one [acquire] and the one [release] of the session lock; only
    warnings and the session set-up come before, only the stop event
    after. *)
Theorem transfer_happens_under_the_lock url target md5sum w :
  blocked env target w = false ->
  exists before during after,
    (download env url target md5sum w).2
      = before ++ MutexAcquire :: during ++ MutexRelease :: after /\
    List.filter is_transfer before = [] /\
    List.filter is_transfer after = [] /\
    List.filter is_lock during = [] /\
    List.filter is_get during = [SessionGet url].
Proof.
  intros Hb0. exit_paths env url target md5sum w; [congruence|..].
  - exists (pre_events env url target w ++ if session_cached w then [] else [SessionInit]),
           [SessionGet url], [].
    split; [unfold enter_events;
            repeat first [rewrite <- app_assoc | progress cbn [app]]; reflexivity|].
    repeat split; trace_filter; destruct (session_cached w); reflexivity.
  - exists (pre_events env url target w ++ if session_cached w then [] else [SessionInit]),
           (SessionGet url :: start_events target cl'), (stop_events (Some cl')).
    split; [unfold enter_events;
            repeat first [rewrite <- app_assoc | progress cbn [app]]; reflexivity|].
    repeat split; trace_filter; destruct (session_cached w), (truthy cl'); reflexivity.
  - destruct (stream_loop_frame _ _ _ _ _ _ _ _ _ _ _ _ Hloop)
      as (_ & _ & _ & _ & _ & Hev & _).
    exists (pre_events env url target w ++ if session_cached w then [] else [SessionInit]),
           (SessionGet url :: start_events target cl' ++
            FileOpen target :: tl ++ [FileClose target]),
           (stop_events (Some cl')).
    split.
    { unfold enter_events.
      repeat first [rewrite <- app_assoc | progress cbn [app]]. reflexivity. }
    assert (Hl : List.filter is_lock tl = [])
      by (apply filter_loop_events; [|exact Hev]; by intros []).
    assert (Hg : List.filter is_get tl = [])
      by (apply filter_loop_events; [|exact Hev]; by intros []).
    repeat split.
    + trace_filter. destruct (session_cached w); reflexivity.
    + trace_filter. destruct (truthy cl'); reflexivity.
    + cbn [List.filter is_lock]. rewrite !List.filter_app. cbn [List.filter is_lock].
      rewrite List.filter_app, Hl. unfold start_events. by destruct (truthy cl').
    + cbn [List.filter is_get]. rewrite !List.filter_app. cbn [List.filter is_get].
      rewrite List.filter_app, Hg. unfold start_events. by destruct (truthy cl').
Qed.

(** X9.  On every path, a progress-update event is logged only in a call
    with a non-zero declared length, and its value lies between 0 and that
    length. *)
Theorem progress_within_declared_length url target md5sum w :
  progress_of (download env url target md5sum w).2 = [] \/
  exists cl,
    observed env url target w cl /\
    Forall (fun n => (0 <= n <= cl)%Z) (progress_of (download env url target md5sum w).2).
Proof.
  exit_paths env url target md5sum w.
  - by left.
  - left. unfold progress_of. rewrite !omap_app, omap_pre by reflexivity.
    unfold enter_events. by destruct (session_cached w).
  - left. unfold progress_of. rewrite !omap_app, omap_pre by reflexivity.
    unfold enter_events, start_events, stop_events. cbn [default from_option id].
    by destruct (session_cached w), (truthy cl').
  - assert (Hp : progress_of
                   (pre_events env url target w ++ enter_events w url ++
                    start_events target cl' ++ FileOpen target :: tl ++
                    [FileClose target; MutexRelease] ++ stop_events (Some cl'))
                 = progress_of tl).
    { unfold progress_of. apply omap_streamed.
      intros [] Hev; try reflexivity; discriminate Hev. }
    rewrite Hp.
    destruct (stream_loop_frame _ _ _ _ _ _ _ _ _ _ _ _ Hloop)
      as (_ & _ & _ & _ & _ & _ & Hzero).
    destruct (truthy cl') eqn:Hcl; [|left; by apply Hzero].
    right. exists cl'. split.
    + split; [exact Hb|]. exists resp', se'. by rewrite <- truthy_true.
    + eapply Forall_impl; [eapply stream_loop_progress_in_range; exact Hloop|].
      intros n Hn. by apply in_range_bounds in Hn as [_ Hn].
Qed.

(** X10.  A call that returns normally with a positive declared length
    ends its progress updates with that length. *)
Theorem progress_ends_at_declared_length url target md5sum w cl :
  (download env url target md5sum w).1.1 = Return tt ->
  observed env url target w cl ->
  (0 < cl)%Z ->
  last (progress_of (download env url target md5sum w).2) = Some cl.
Proof.
  intros Hret (_ & resp0 & se0 & Hget0 & _ & Hh0 & Hne) Hpos.
  destruct (normal_return_inv env url target md5sum w Hret)
    as (resp & cl0 & Hends & Hlen & _).
  pose proof Hends as (_ & Hget & _ & Hh & _).
  assert (resp0 = resp) as -> by congruence.
  assert (cl0 = cl) as -> by congruence.
  rewrite (progress_of_stream_ends env url target md5sum w resp cl Hends).
  destruct Hlen as [?|Hlast]; [contradiction|].
  apply last_filter_keeps.
  - unfold last_tell in Hlast.
    destruct (last (map snd (body resp))) as [x|]; cbn in Hlast; [by subst|lia].
  - apply in_range_bounds. lia.
Qed.

(** X11.  The warning about unverified HTTPS requests is silenced once per
    call that passes the precondition check when certificate checks are
    off, and never otherwise. *)
Theorem insecure_warning_silenced_once url target md5sum w :
  List.filter is_ssl_warning (download env url target md5sum w).2 =
  if blocked env target w then []
  else if ssl_verify (context env) then [] else [WarningsIgnoreInsecure].
Proof.
  assert (Hpre : List.filter is_ssl_warning (pre_events env url target w)
                 = if ssl_verify (context env) then [] else [WarningsIgnoreInsecure]).
  { unfold pre_events. by destruct (bool_decide _), (ssl_verify _). }
  exit_paths env url target md5sum w; rewrite Hb.
  - reflexivity.
  - rewrite List.filter_app, Hpre. trace_filter.
    destruct (session_cached w), (ssl_verify _); reflexivity.
  - rewrite List.filter_app, Hpre. trace_filter.
    destruct (session_cached w), (truthy cl'), (ssl_verify _); reflexivity.
  - destruct (stream_loop_frame _ _ _ _ _ _ _ _ _ _ _ _ Hloop)
      as (_ & _ & _ & _ & _ & Hev & _).
    rewrite filter_streamed.
    + rewrite List.filter_app, Hpre. trace_filter.
      destruct (session_cached w), (truthy cl'), (ssl_verify _); reflexivity.
    + apply filter_loop_events; [|exact Hev]. by intros [].
Qed.

(** X12.  A call that passes the precondition check leaves the shared
    session instance installed, installing it itself only when there was
    none; a call that follows, whatever its arguments, installs nothing. *)
Theorem session_instance_installed_once url target md5sum w env2 url2 target2 md5sum2 :
  blocked env target w = false ->
  session_cached (download env url target md5sum w).1.2 = true /\
  List.filter is_init (download env url target md5sum w).2
    = (if session_cached w then [] else [SessionInit]) /\
  List.filter is_init
    (download env2 url2 target2 md5sum2 (download env url target md5sum w).1.2).2 = [].
Proof.
  intros Hb.
  destruct (session_init_log url target md5sum w) as (Hsc & Hinit).
  rewrite Hb in Hsc, Hinit. split; [exact Hsc|]. split; [exact Hinit|].
  clear Hinit. revert Hsc.
  generalize (download env url target md5sum w).1.2. intros w1 Hsc.
  pose proof (download_exit_path env2 url2 target2 md5sum2 w1) as Hpath.
  destruct (download env2 url2 target2 md5sum2 w1) as [[r w'] t]. cbn [fst snd] in *.
  destruct Hpath as [Hb'|e Hb' Hreq|resp' se' cl' errno' Hb' Hget Hst Hh Ho
                    |resp' se' cl' rl s' tl Hb' Hget Hst Hh Ho Hloop].
  - reflexivity.
  - trace_filter. by rewrite Hsc.
  - trace_filter. rewrite Hsc. by destruct (truthy cl').
  - destruct (stream_loop_frame _ _ _ _ _ _ _ _ _ _ _ _ Hloop)
      as (_ & _ & _ & _ & _ & Hev & _).
    rewrite filter_streamed.
    + trace_filter. rewrite Hsc. by destruct (truthy cl').
    + apply filter_loop_events; [|exact Hev]. by intros [].
Qed.

(** X13.  Once a call has opened the destination, the file exists when
    the call is over, whatever the call ended with; a later call for the
    same destination under the raising policy is stopped by the
    precondition check before it logs anything. *)
Theorem destination_exists_after_open url target md5sum w resp se cl env2 url2 md5sum2 :
  stream_starts env url target w resp se cl ->
  is_Some (fs (download env url target md5sum w).1.2 !! target) /\
  (path_conflict (context env2) = Prevent ->
   download env2 url2 target md5sum2 (download env url target md5sum w).1.2
   = (Raise (BasicClobberError target url2), (download env url target md5sum w).1.2, [])).
Proof.
  intros Hstart.
  destruct (stream_loop env target cl (body resp) se 0 [] 0%Z
              (mkFrame (opened target w) (Some cl))) as [[r s'] t] eqn:Hloop.
  rewrite (download_stream_starts env url target md5sum w resp se cl Hstart _ _ _ Hloop).
  cbn [fst snd].
  destruct (stream_loop_frame _ _ _ _ _ _ _ _ _ _ _ _ Hloop)
    as (_ & _ & _ & Hfile & _ & _ & _).
  specialize (Hfile [] (opened_lookup target w)).
  split; [by rewrite Hfile|].
  intros Hp. rewrite download_run. unfold blocked.
  rewrite Hp, bool_decide_eq_true_2; [reflexivity|by rewrite Hfile].
Qed.

(** X14.  A call that passes the precondition check issues exactly one
    GET, for the url it was given, on every path; a call that is stopped
    issues none. *)
Theorem one_get_for_the_given_url url target md5sum w :
  List.filter is_get (download env url target md5sum w).2 =
  if blocked env target w then [] else [SessionGet url].
Proof.
  exit_paths env url target md5sum w; rewrite Hb.
  - reflexivity.
  - trace_filter. destruct (session_cached w); reflexivity.
  - trace_filter. destruct (session_cached w), (truthy cl'); reflexivity.
  - destruct (stream_loop_frame _ _ _ _ _ _ _ _ _ _ _ _ Hloop)
      as (_ & _ & _ & _ & _ & Hev & _).
    rewrite filter_streamed.
    + trace_filter. destruct (session_cached w), (truthy cl'); reflexivity.
    + apply filter_loop_events; [|exact Hev]. by intros [].
Qed.

(** X15.  An expected checksum that is not 32 characters long can never
    match: whenever the verification step is reached with it, the call
    raises [MD5MismatchError]. *)
Theorem checksum_of_wrong_length_never_matches url target m w resp cl :
  stream_ends env url target w resp cl ->
  cl = 0%Z \/ last_tell 0 (body resp) = cl ->
  m <> "" ->
  String.length m <> 32%nat ->
  (download env url target (Some m) w).1.1 =
  Raise (MD5MismatchError url target m (MD5.hexdigest (concat (map fst (body resp))))).
Proof.
  intros Hends Hlen Hm Hne.
  destruct (download_stream_ends env url target (Some m) w resp cl Hends) as (s' & t & _ & ->).
  apply length_test_false in Hlen. rewrite Hlen.
  unfold verified. cbn [fst default from_option]. unfold id.
  assert (truthy_str (Some m) = true) as -> by (destruct m; [done|reflexivity]).
  assert ((MD5.hexdigest (concat (map fst (body resp))) =? m)%string = false) as ->.
  { apply String.eqb_neq. intros Heq. apply Hne. rewrite <- Heq. apply hexdigest_length. }
  reflexivity.
Qed.

(** X16.  The label of a transfer-start event is the file name of the
    destination cut to 14 characters: it is never longer and never holds a
    slash. *)
Theorem transfer_label_is_short_file_name url target md5sum w name cl :
  In (FetchStart name cl) (download env url target md5sum w).2 ->
  name = str_take 14 (basename target) /\
  (String.length name <= 14)%nat /\
  contains "/" name = false.
Proof.
  intros Hin.
  assert (Hin' : In (FetchStart name cl)
                    (List.filter is_start_stop (download env url target md5sum w).2))
    by (apply List.filter_In; by split).
  destruct (start_stop_log url target md5sum w) as [Hnone|(cl0 & Hone)].
  - rewrite Hnone in Hin'. destruct Hin'.
  - rewrite Hone in Hin'. destruct Hin' as [[= <- <-]|[Heq|[]]]; [|discriminate Heq].
    split; [reflexivity|]. split; [apply str_take_length|].
    apply str_take_has_no_slash, basename_has_no_slash.
Qed.

End Extras2.

(** ** Further properties of the session lock *)

Lemma held_initial n : held_by_someone (Threads.initial n).
Proof. intros Hm. discriminate Hm. Qed.

Lemma held_step c c' : held_by_someone c -> Threads.step c c' -> held_by_someone c'.
Proof.
  intros Hheld Hstep.
  destruct Hstep as [i g g' p p' ths Hi Hts]. unfold held_by_someone in *. cbn in *.
  assert (Hlt : (i < length ths)%nat) by (by eapply lookup_lt_Some).
  destruct (thread_step_kinds _ _ _ _ _ Hts)
    as [(Hsame & Hm)|[(_ & _ & Hp' & _)|(_ & _ & Hm')]].
  - rewrite Hm. intros Hg. destruct (Hheld Hg) as (k & q & Hk & Hq).
    destruct (decide (k = i)) as [->|Hne].
    + exists i, p'. split; [by apply list_lookup_insert_eq|].
      rewrite Hsame. congruence.
    + exists k, q. split; [by rewrite list_lookup_insert_ne|exact Hq].
  - intros _. exists i, p'. split; [by apply list_lookup_insert_eq|exact Hp'].
  - rewrite Hm'. discriminate.
Qed.

Lemma held_reachable n c : Threads.reachable n c -> held_by_someone c.
Proof.
  unfold Threads.reachable. intros Hreach.
  apply rtc_ind_r with (x := Threads.initial n) (P := held_by_someone) in Hreach; auto.
  - apply held_initial.
  - intros y z _ Hstep Hy. by eapply held_step.
Qed.

Lemma thread_step_rank i g p g' p' :
  Threads.thread_step i (g, p) (g', p') -> thread_rank p = S (thread_rank p').
Proof. by inversion 1. Qed.

Lemma total_rank_initial n : total_rank (Threads.initial n) = (5 * n)%nat.
Proof.
  unfold total_rank. cbn. induction n as [|n IH]; [reflexivity|].
  cbn in *. lia.
Qed.

#[local] Arguments thread_rank : simpl never.

Lemma sum_rank_insert (ths : list Threads.pc) i p p' :
  ths !! i = Some p ->
  (sum_list (thread_rank <$> <[i := p']> ths) + thread_rank p
   = sum_list (thread_rank <$> ths) + thread_rank p')%nat.
Proof.
  revert i. induction ths as [|q ths IH]; intros [|i] Hi; try discriminate Hi.
  - cbn in Hi. inversion Hi; subst. cbn.
    generalize (thread_rank p), (thread_rank p'), (sum_list (thread_rank <$> ths)).
    intros; lia.
  - cbn in Hi. specialize (IH i Hi). cbn.
    rewrite <- !Nat.add_assoc. f_equal. exact IH.
Qed.

Lemma step_rank c c' : Threads.step c c' -> total_rank c = S (total_rank c').
Proof.
  intros [i g g' p p' ths Hi Hts]. unfold total_rank. cbn.
  pose proof (sum_rank_insert ths i p p' Hi) as Hsum.
  apply thread_step_rank in Hts. lia.
Qed.

(** X17.  Callers of the session never deadlock: in every reachable
    state in which some caller has not finished, some caller can take a
    step. *)
Theorem callers_never_deadlock n c :
  Threads.reachable n c ->
  (exists i p, Threads.threads c !! i = Some p /\ finished p = false) ->
  exists c', Threads.step c c'.
Proof.
  intros Hreach (i & p & Hi & Hp).
  pose proof (held_reachable n c Hreach) as Hheld.
  destruct c as [g ths]. unfold held_by_someone in Hheld. cbn in *.
  destruct p as [|[j|]|j|j|j b|b]; try discriminate Hp.
  - eexists. eapply (Threads.step_thread i); [exact Hi|apply Threads.step_read].
  - eexists. eapply (Threads.step_thread i); [exact Hi|apply Threads.step_reuse].
  - eexists. eapply (Threads.step_thread i); [exact Hi|apply Threads.step_install].
  - destruct (Threads.mutex g) eqn:Hm.
    + destruct (Hheld eq_refl) as (k & q & Hk & Hq).
      destruct q as [| | |j'|j' b|]; try discriminate Hq.
      * eexists. eapply (Threads.step_thread k); [exact Hk|].
        apply (Threads.step_block_done k g j' false).
      * eexists. eapply (Threads.step_thread k); [exact Hk|apply Threads.step_release].
    + eexists. eapply (Threads.step_thread i); [exact Hi|by apply Threads.step_acquire].
  - eexists. eapply (Threads.step_thread i); [exact Hi|].
    apply (Threads.step_block_done i g j false).
  - eexists. eapply (Threads.step_thread i); [exact Hi|apply Threads.step_release].
Qed.

(** X18.  Every caller runs five statements: a run of [n] callers that
    has taken [k] steps has [5 * n - k] statements left, so no run is
    longer than [5 * n] steps; and when all callers have finished the lock
    is free. *)
Theorem runs_are_bounded_and_end_unlocked n k c :
  nsteps Threads.step k (Threads.initial n) c ->
  (k + total_rank c = 5 * n)%nat /\
  ((forall i p, Threads.threads c !! i = Some p -> finished p = true) ->
   Threads.mutex (Threads.attrs c) = false).
Proof.
  intros Hrun. split.
  - revert c Hrun. induction k as [|k IH]; intros c Hrun.
    + inversion Hrun; subst. apply total_rank_initial.
    + apply nsteps_inv_r in Hrun as (c0 & Hrun & Hstep).
      specialize (IH c0 Hrun). apply step_rank in Hstep. lia.
  - intros Hall.
    pose proof (held_reachable n c (rtc_nsteps_2 _ _ _ Hrun)) as Hheld.
    destruct (Threads.mutex (Threads.attrs c)) eqn:Hm; [|reflexivity].
    destruct (Hheld Hm) as (i & p & Hi & Hp).
    specialize (Hall i p Hi). by destruct p.
Qed.

Lemma sessions_valid_step n c c' :
  sessions_valid n c -> Threads.step c c' -> sessions_valid n c'.
Proof.
  intros (Hlen & Hc & Hs) Hstep.
  destruct Hstep as [i g g' p p' ths Hi Hts].
  unfold sessions_valid. cbn [Threads.threads Threads.attrs] in *.
  assert (Hlt : (i < n)%nat) by (rewrite <- Hlen; by eapply lookup_lt_Some).
  assert (Hlook : forall k q, <[i := p']> ths !! k = Some q ->
                              (k = i /\ q = p') \/ (k <> i /\ ths !! k = Some q)).
  { intros k q Hk. apply list_lookup_insert_Some in Hk.
    destruct Hk as [(-> & -> & _)|(Hne & Hk)]; auto. }
  split; [by rewrite length_insert|].
  inversion Hts; subst; cbn [Threads.cached Threads.mutex] in *.
  - split; [exact Hc|]. intros k q j Hk Hj.
    destruct (Hlook k q Hk) as [(-> & ->)|(_ & Hold)]; [|by eapply Hs].
    cbn in Hj. split; [by apply Hc|by rewrite Hj].
  - split; [intros j [= <-]; exact Hlt|]. intros k q j Hk Hj.
    destruct (Hlook k q Hk) as [(-> & ->)|(_ & Hold)].
    + cbn in Hj. inversion Hj; subst. split; [exact Hlt|by eexists].
    + split; [by eapply Hs|by eexists].
  - split; [exact Hc|]. intros k q j' Hk Hj.
    destruct (Hlook k q Hk) as [(-> & ->)|(_ & Hold)]; [|by eapply Hs].
    cbn in Hj. inversion Hj; subst. by apply (Hs i (Threads.Checked (Some j'))).
  - split; [exact Hc|]. intros k q j' Hk Hj.
    destruct (Hlook k q Hk) as [(-> & ->)|(_ & Hold)]; [|by eapply Hs].
    cbn in Hj. inversion Hj; subst. by apply (Hs i (Threads.Acquiring j')).
  - split; [exact Hc|]. intros k q j' Hk Hj.
    destruct (Hlook k q Hk) as [(-> & ->)|(_ & Hold)]; [|by eapply Hs].
    cbn in Hj. inversion Hj; subst. by apply (Hs i (Threads.InBlock j')).
  - split; [exact Hc|]. intros k q j' Hk Hj.
    destruct (Hlook k q Hk) as [(-> & ->)|(_ & Hold)]; [|by eapply Hs].
    discriminate Hj.
Qed.

(** X19.  The session a caller works with is always an instance that one
    of the callers constructed, the shared instance is set from the moment
    any caller holds one, and a step never clears it. *)
Theorem session_instances_are_callers n c :
  Threads.reachable n c ->
  (forall i p j, Threads.threads c !! i = Some p -> session_of p = Some j ->
                 (j < n)%nat /\ is_Some (Threads.cached (Threads.attrs c))) /\
  (forall c', Threads.step c c' ->
              is_Some (Threads.cached (Threads.attrs c)) ->
              is_Some (Threads.cached (Threads.attrs c'))).
Proof.
  intros Hreach. split.
  - assert (Hinv : sessions_valid n c).
    { unfold Threads.reachable in Hreach.
      apply rtc_ind_r with (x := Threads.initial n) (P := sessions_valid n) in Hreach; auto.
      - split; [apply length_replicate|]. split; [discriminate|].
        intros i p j Hi Hj. apply lookup_replicate in Hi as [-> _]. discriminate Hj.
      - intros y z _ Hstep Hy. by eapply sessions_valid_step. }
    apply Hinv.
  - intros c' Hstep Hsome.
    destruct Hstep as [i g g' p p' ths Hi Hts]. cbn in *.
    inversion Hts; subst; cbn; auto; by eexists.
Qed.

(** ** The further properties on concrete calls *)

Import Faults.

Lemma stream_starts_on_empty_disk resp se cl :
  status_fails resp = false ->
  header_length resp = Some cl ->
  stream_starts (serve (GetReturns resp se)) url target empty_disk resp se cl.
Proof. intros Hst Hh. repeat split; auto. Qed.

Lemma write_failure_stops_the_transfer_witness :
  updates_of (download env_disk_full url target None empty_disk).2
    = map fst (take 1 (body resp_ok)).
Proof.
  refine (proj1 (proj2 (proj2 (write_failure_stops_the_transfer
                                 env_disk_full url target None empty_disk resp_ok None 4 1 28
                                 _ _ _ _)))).
  - repeat split; vm_compute; reflexivity.
  - cbn. lia.
  - reflexivity.
  - intros [|j] Hj; [reflexivity|lia].
Defined.

Lemma open_failure_propagates_witness :
  (download env_no_permission url target None empty_disk).1.1 = Raise (LibError (IOError 13)).
Proof.
  refine (proj1 (open_failure_propagates
                   env_no_permission url target None empty_disk resp_ok None 4 13
                   _ _ _ _ _)); vm_compute; reflexivity.
Defined.

Lemma malformed_length_header_raises_witness :
  (download (serve (GetReturns resp_bad_header None)) url target None empty_disk).1.1 =
  Raise (LibError (ValueError "invalid literal for int() with base 10: '12a'")).
Proof.
  refine (proj1 (malformed_length_header_raises
                   (serve (GetReturns resp_bad_header None)) url target None empty_disk
                   resp_bad_header None "12a" _ _ _ _ _)); vm_compute; reflexivity.
Defined.

Lemma invalid_schema_is_socks_or_reraised_witness :
  (download (serve (GetRaises socks_missing)) url target None empty_disk).1.1 =
  Raise (CondaDependencyError socks_message).
Proof.
  exact (invalid_schema_is_socks_or_reraised
           (serve (GetRaises socks_missing)) url target None empty_disk
           "Missing dependencies for SOCKS support." eq_refl eq_refl).
Defined.

Lemma unnamed_exception_passes_through_witness :
  (download (serve (GetRaises read_timeout)) url target None empty_disk).1.1 =
  Raise (LibError read_timeout).
Proof.
  refine (proj1 (unnamed_exception_passes_through
                   (serve (GetRaises read_timeout)) url target None empty_disk
                   read_timeout _ _ _)); reflexivity.
Defined.

Lemma transfer_happens_under_the_lock_witness :
  exists before during after,
    (download (env_lenient (GetReturns resp_ok None)) url target None taken_disk).2
      = before ++ MutexAcquire :: during ++ MutexRelease :: after /\
    List.filter is_transfer before = [] /\
    List.filter is_transfer after = [] /\
    List.filter is_lock during = [] /\
    List.filter is_get during = [SessionGet url].
Proof.
  apply (transfer_happens_under_the_lock
           (env_lenient (GetReturns resp_ok None)) url target None taken_disk).
  vm_compute. reflexivity.
Defined.

Lemma normal_return_requires_witness :
  exists resp cl,
    stream_ends (serve (GetReturns resp_ok None)) url target empty_disk resp cl /\
    (cl = 0%Z \/ last_tell 0 (body resp) = cl) /\
    verified url target (Some md5_abcd) (map fst (body resp)) = Return tt.
Proof.
  apply (normal_return_requires
           (serve (GetReturns resp_ok None)) url target (Some md5_abcd) empty_disk).
  vm_compute. reflexivity.
Defined.

Lemma progress_ends_at_declared_length_witness :
  last (progress_of (download (serve (GetReturns resp_ok None)) url target None empty_disk).2)
  = Some 4%Z.
Proof.
  apply (progress_ends_at_declared_length
           (serve (GetReturns resp_ok None)) url target None empty_disk 4).
  - vm_compute. reflexivity.
  - split; [vm_compute; reflexivity|].
    exists resp_ok, None. repeat split; try (vm_compute; reflexivity). discriminate.
  - lia.
Defined.

Lemma session_instance_installed_once_witness :
  session_cached
    (download (serve (GetReturns resp_not_found None)) url target None empty_disk).1.2 = true /\
  List.filter is_init
    (download (serve (GetReturns resp_ok None)) url target None
       (download (serve (GetReturns resp_not_found None)) url target None empty_disk).1.2).2
  = [].
Proof.
  destruct (session_instance_installed_once
              (serve (GetReturns resp_not_found None)) url target None empty_disk
              (serve (GetReturns resp_ok None)) url target None)
    as (Hsc & _ & Hnext).
  - vm_compute. reflexivity.
  - split; [exact Hsc|exact Hnext].
Defined.

Lemma destination_exists_after_open_witness :
  download (serve (GetReturns resp_ok None)) url target None
    (download (serve (GetReturns resp_short None)) url target None empty_disk).1.2
  = (Raise (BasicClobberError target url),
     (download (serve (GetReturns resp_short None)) url target None empty_disk).1.2, []).
Proof.
  refine (proj2 (destination_exists_after_open
                   (serve (GetReturns resp_short None)) url target None empty_disk
                   resp_short None 1024 (serve (GetReturns resp_ok None)) url None _) _).
  - apply stream_starts_on_empty_disk; vm_compute; reflexivity.
  - reflexivity.
Defined.

Lemma checksum_of_wrong_length_never_matches_witness :
  (download (serve (GetReturns resp_ok None)) url target (Some "e2fc714c") empty_disk).1.1 =
  Raise (MD5MismatchError url target "e2fc714c"
           (MD5.hexdigest (concat (map fst (body resp_ok))))).
Proof.
  apply (checksum_of_wrong_length_never_matches
           (serve (GetReturns resp_ok None)) url target "e2fc714c" empty_disk resp_ok 4).
  - apply stream_ends_on_empty_disk; vm_compute; reflexivity.
  - right. vm_compute. reflexivity.
  - discriminate.
  - cbn. lia.
Defined.

Lemma transfer_label_is_short_file_name_witness :
  "numpy-1.11.3-p" = str_take 14 (basename target) /\
  (String.length "numpy-1.11.3-p" <= 14)%nat /\
  contains "/" "numpy-1.11.3-p" = false.
Proof.
  apply (transfer_label_is_short_file_name
           (serve (GetReturns resp_ok None)) url target None empty_disk "numpy-1.11.3-p" 4).
  vm_compute. do 3 right. left. reflexivity.
Defined.

Lemma callers_never_deadlock_witness : exists c', Threads.step one_inside c'.
Proof.
  apply (callers_never_deadlock 2 one_inside one_inside_reachable).
  exists 1%nat, (Threads.Acquiring 0). split; reflexivity.
Defined.

Lemma one_done_in_five_steps : nsteps Threads.step 5 (Threads.initial 1) one_done.
Proof.
  unfold Threads.initial, one_done.
  eapply nsteps_l; [eapply (Threads.step_thread 0); [reflexivity|apply Threads.step_read]|cbn].
  eapply nsteps_l;
    [eapply (Threads.step_thread 0); [reflexivity|apply Threads.step_install]|cbn].
  eapply nsteps_l;
    [eapply (Threads.step_thread 0); [reflexivity|by apply Threads.step_acquire]|cbn].
  eapply nsteps_l;
    [eapply (Threads.step_thread 0);
     [reflexivity|apply (Threads.step_block_done 0 _ _ true)]|cbn].
  eapply nsteps_l;
    [eapply (Threads.step_thread 0); [reflexivity|apply Threads.step_release]|cbn].
  apply nsteps_O.
Defined.

Lemma runs_are_bounded_and_end_unlocked_witness :
  (5 + total_rank one_done = 5 * 1)%nat /\
  Threads.mutex (Threads.attrs one_done) = false.
Proof.
  destruct (runs_are_bounded_and_end_unlocked 1 5 one_done one_done_in_five_steps)
    as (Hrank & Hfree).
  split; [exact Hrank|]. apply Hfree.
  intros [|i] p Hi; [by inversion Hi|discriminate Hi].
Defined.

Lemma session_instances_are_callers_witness :
  (0 < 2)%nat /\ is_Some (Threads.cached (Threads.attrs one_inside)).
Proof.
  exact (proj1 (session_instances_are_callers 2 one_inside one_inside_reachable)
               1%nat (Threads.Acquiring 0) 0%nat eq_refl eq_refl).
Defined.
